(** * intuition_model.py: value and policy estimators

    A shallow embedding of [src/intuition_model.py].

    - Python [float] is IEEE 754 binary64: Rocq's primitive [float].
    - A cell of a [numpy.float32] array is a binary32 value; it is held as
      the Python float that reading the cell gives, so that every store into
      such an array goes through [float32] and the arithmetic on such arrays
      is binary32 arithmetic ([add32], [div32]).
    - Python [int] is [Z].
    - A method that reads or mutates [self] is a computation in the
      state-and-exception monad [M]: it is run on the object's state and
      gives back either a value or the exception raised, together with the
      state as the method left it.
    - A [dict] keyed by tuples of ints is a [gmap (list Z) _]; an attribute
      that still holds its dataclass default [None] is the [None] of
      [option].
    - The boosted-tree backend ([treelite_predictor]) is a parameter; every
      call to it is recorded in a log.  What [numpy] and [treelite] do is
      taken from these libraries: [numpy.empty], the conversion to
      [float32], the pairwise summation of [sum], the refusal of an array
      without rows by [TreeliteBatch.from_npy2d]. *)

From Stdlib Require Import ZArith List String Floats Uint63 Lia.
From stdpp Require Import gmap strings list fin_maps.
From Equations Require Import Equations.

Local Open Scope Z_scope.

(** ** Exceptions and results *)

Inductive exn : Type :=
| KeyError
| ZeroDivisionError
| TypeError
| AttributeError
| IndexError
| ValueError
| OverflowError
| TreeliteError
| RuntimeError (msg : string).

Inductive result (A : Type) : Type :=
| Ok (a : A)
| Raise (e : exn).
Arguments Ok {A} a.
Arguments Raise {A} e.

(** ** The state-and-exception monad

    [M S A] is a computation over a mutable state [S].  The state is
    returned on both outcomes: an exception does not roll back what was
    written before it. *)

Definition M (S A : Type) : Type := S -> result A * S.

Definition ret {S A} (a : A) : M S A := fun s => (Ok a, s).

Definition raise {S A} (e : exn) : M S A := fun s => (Raise e, s).

Definition bind {S A B} (m : M S A) (k : A -> M S B) : M S B :=
  fun s =>
    match m s with
    | (Ok a, s') => k a s'
    | (Raise e, s') => (Raise e, s')
    end.

Definition lift {S A} (r : result A) : M S A := fun s => (r, s).

Definition gets {S A} (f : S -> A) : M S A := fun s => (Ok (f s), s).

Definition modify {S} (f : S -> S) : M S unit := fun s => (Ok tt, f s).

(** [try: m except e: handler e] *)
Definition try_except {S A} (m : M S A) (handler : exn -> M S A) : M S A :=
  fun s =>
    match m s with
    | (Ok a, s') => (Ok a, s')
    | (Raise e, s') => handler e s'
    end.

Declare Scope py_scope.
Delimit Scope py_scope with py.
Notation "x <- m ;; k" := (bind m (fun x => k))
  (at level 100, m at next level, right associativity) : py_scope.
Notation "m ;; k" := (bind m (fun _ => k))
  (at level 100, right associativity) : py_scope.
Local Open Scope py_scope.

(** A [for] loop whose body updates the loop-carried locals [b]. *)
Fixpoint foldM {S A B} (body : B -> A -> M S B) (l : list A) (b : B) : M S B :=
  match l with
  | [] => ret b
  | x :: l' => b' <- body b x ;; foldM body l' b'
  end.

(** A [for] loop run for its effect on the state only. *)
Definition for_each {S A} (l : list A) (body : A -> M S unit) : M S unit :=
  foldM (fun _ x => body x) l tt.

(** [enumerate(l)], counting from [n]. *)
Fixpoint enumerate_from {A} (n : nat) (l : list A) : list (nat * A) :=
  match l with
  | [] => []
  | x :: l' => (n, x) :: enumerate_from (S n) l'
  end.

Definition enumerate {A} (l : list A) : list (nat * A) := enumerate_from 0 l.

(** ** Numbers *)

(** [float(z)] for an int [z]: the nearest binary64 value. *)
Definition float_of_int (z : Z) : float :=
  SF2Prim (binary_normalize prec emax z 0 false).

(** [float(z)] as Python computes it: an int whose nearest binary64 value
    is beyond the largest finite one raises [OverflowError]. *)
Definition py_float_of_int (z : Z) : result float :=
  let f := float_of_int z in
  if PrimFloat.is_infinity f then Raise OverflowError else Ok f.

(** ** binary32, the cells of a [numpy.float32] array *)

Definition prec32 : Z := 24.
Definition emax32 : Z := 128.

(** Rounding of a binary64 datum to the nearest binary32 value, ties to
    even; beyond the binary32 range the result is an infinity, below it a
    subnormal or a zero of the same sign. *)
Definition round32 (x : spec_float) : spec_float :=
  match x with
  | S754_finite s m e => binary_round prec32 emax32 s m e
  | _ => x
  end.

(** [numpy.float32(x)], read back as a Python float. *)
Definition float32 (x : float) : float := SF2Prim (round32 (Prim2SF x)).

(** [x + y] and [x / y] on two binary32 values. *)
Definition add32 (x y : float) : float :=
  SF2Prim (SFadd prec32 emax32 (Prim2SF x) (Prim2SF y)).

Definition div32 (x y : float) : float :=
  SF2Prim (SFdiv prec32 emax32 (Prim2SF x) (Prim2SF y)).

(** [len(l)] as an int. *)
Definition len {A} (l : list A) : Z := Z.of_nat (length l).

(** [x / y] on floats: Python raises when the divisor compares equal to
    zero (either sign); otherwise the quotient is IEEE division. *)
Definition py_truediv (x y : float) : result float :=
  if PrimFloat.eqb y 0%float then Raise ZeroDivisionError
  else Ok (PrimFloat.div x y).

(** [a / b] on ints.  CPython divides the two operands as doubles when both
    convert exactly (magnitudes up to 2^53), which is the range of the
    counts held by the tabular estimators. *)
Definition py_int_truediv (a b : Z) : result float :=
  if Z.eqb b 0 then Raise ZeroDivisionError
  else Ok (PrimFloat.div (float_of_int a) (float_of_int b)).

(** [int(f)] for a float [f]: truncation toward zero. *)
Definition int_of_float (f : float) : result Z :=
  match Prim2SF f with
  | S754_zero _ => Ok 0
  | S754_nan => Raise ValueError
  | S754_infinity _ => Raise OverflowError
  | S754_finite s m e => Ok (cond_Zopp s (Z.shiftl (Z.pos m) e))
  end.

(** A number as a Python value. *)
Inductive pynum : Type :=
| PyInt (z : Z)
| PyFloat (f : float).

(** ** Objects and dictionaries

    The objects that reach a dictionary lookup: ints, tuples and lists.  A
    [numpy] array counts as a list here: like a list it cannot be hashed. *)

#[warnings="-register-all"]
Inductive pyobj : Type :=
| PInt (z : Z)
| PTuple (items : list pyobj)
| PList (items : list pyobj).

(** [hash(o)] succeeds: a list is unhashable, and so is a tuple that holds
    an unhashable object. *)
Fixpoint hashable (o : pyobj) : bool :=
  match o with
  | PInt _ => true
  | PTuple items => forallb hashable items
  | PList _ => false
  end.

(** [tuple(features)] for a sequence of ints. *)
Definition tuple_of_ints (features : list Z) : pyobj := PTuple (map PInt features).

(** [list(features)], or an array holding them. *)
Definition list_of_ints (features : list Z) : pyobj := PList (map PInt features).

Definition as_int (o : pyobj) : option Z :=
  match o with
  | PInt z => Some z
  | PTuple _ | PList _ => None
  end.

Fixpoint as_ints (items : list pyobj) : option (list Z) :=
  match items with
  | [] => Some []
  | o :: items' =>
      match as_int o, as_ints items' with
      | Some z, Some zs => Some (z :: zs)
      | _, _ => None
      end
  end.

(** The tuple of ints an object is equal to, if there is one. *)
Definition as_int_tuple (o : pyobj) : option (list Z) :=
  match o with
  | PTuple items => as_ints items
  | PInt _ | PList _ => None
  end.

(** [d[k]] for an arbitrary object [k], on a dictionary all of whose keys
    are tuples of ints: [None] cannot be subscripted, an unhashable [k]
    raises [TypeError], and a hashable [k] hits only if it is itself such a
    tuple. *)
Definition py_getitem_obj {V} (d : option (gmap (list Z) V)) (k : pyobj) : result V :=
  match d with
  | None => Raise TypeError
  | Some m =>
      if hashable k then
        match as_int_tuple k with
        | Some key =>
            match m !! key with
            | Some v => Ok v
            | None => Raise KeyError
            end
        | None => Raise KeyError
        end
      else Raise TypeError
  end.

(** [d[key]] *)
Definition py_getitem {V} (d : option (gmap (list Z) V)) (key : list Z) : result V :=
  match d with
  | None => Raise TypeError
  | Some m =>
      match m !! key with
      | Some v => Ok v
      | None => Raise KeyError
      end
  end.

(** [d.get(key, dflt)] *)
Definition py_get {V} (d : option (gmap (list Z) V)) (key : list Z) (dflt : V) : result V :=
  match d with
  | None => Raise AttributeError
  | Some m => Ok (default dflt (m !! key))
  end.

(** [d[key]] on a [defaultdict(int)]: a missing key reads as 0. *)
Definition py_getitem_defaultdict (d : option (gmap (list Z) Z)) (key : list Z)
  : result Z :=
  match d with
  | None => Raise TypeError
  | Some m => Ok (default 0 (m !! key))
  end.

(** [d[key] = v] *)
Definition py_setitem {V} (d : option (gmap (list Z) V)) (key : list Z) (v : V)
  : result (option (gmap (list Z) V)) :=
  match d with
  | None => Raise TypeError
  | Some m => Ok (Some (<[key := v]> m))
  end.

(** [del d[key]] *)
Definition py_delitem {V} (d : option (gmap (list Z) V)) (key : list Z)
  : result (option (gmap (list Z) V)) :=
  match d with
  | None => Raise TypeError
  | Some m =>
      match m !! key with
      | Some _ => Ok (Some (delete key m))
      | None => Raise KeyError
      end
  end.

(** [list(d.items())] *)
Definition py_items {V} (d : option (gmap (list Z) V)) : result (list (list Z * V)) :=
  match d with
  | None => Raise AttributeError
  | Some m => Ok (map_to_list m)
  end.

(** [{k: v for (k, v) in items}]: later items overwrite earlier ones. *)
Definition dict_of_items {V} (items : list (list Z * V)) : gmap (list Z) V :=
  fold_left (fun m kv => <[kv.1 := kv.2]> m) items ∅.

(** [l[i]] on a list, for an index counted from the front. *)
Definition py_index {A} (l : list A) (i : nat) : result A :=
  match l !! i with
  | Some x => Ok x
  | None => Raise IndexError
  end.

(** ** JSON documents

    What [json.dumps] writes and [json.loads] reads back.  The text layer is
    not modelled: the [json] module maps ints to integer literals, floats to
    their shortest round-tripping literals ([NaN] and [Infinity] included),
    tuples and lists to arrays, and string-keyed dicts to objects, and reads
    each of them back as the same number, a list, or a dict.

    A document is modelled as far as the tables of the estimators go: an
    object whose fields are arrays of [[key, value]] pairs, each key an
    array of integers and each value a number.  These are the documents
    [save] writes for tables of the annotated types. *)

(** A number of a loaded document: an [int] or a [float]. *)
Inductive json_number : Type :=
| JInt (z : Z)
| JFloat (f : float).

(** One field of a document: the array of the [[key, value]] pairs of a
    table, in the order of the text. *)
Definition json_table : Type := list (list Z * json_number).

(** A document: the fields of its object, in the order of the text. *)
Definition json : Type := list (string * json_table).

(** [data[name]] on a loaded document.  Of two fields of the same name
    [json.loads] keeps the later one. *)
Fixpoint json_getitem (data : json) (name : string) : result json_table :=
  match data with
  | [] => Raise KeyError
  | (n, v) :: data' =>
      match json_getitem data' name with
      | Ok v' => Ok v'
      | Raise _ => if String.eqb n name then Ok v else Raise KeyError
      end
  end.

(** [int(value)] and [float(value)] on a loaded number. *)
Definition json_int (value : json_number) : result Z :=
  match value with
  | JInt z => Ok z
  | JFloat f => int_of_float f
  end.

Definition json_float (value : json_number) : result float :=
  match value with
  | JInt z => py_float_of_int z
  | JFloat f => Ok f
  end.

(** [{tuple(key): conv(value) for (key, value) in field}]: the pairs are
    taken in order, a later pair overwrites an earlier one of the same key,
    and the first value that [conv] refuses ends the comprehension. *)
Fixpoint load_items {V} (conv : json_number -> result V) (items : json_table)
    (acc : gmap (list Z) V) : result (gmap (list Z) V) :=
  match items with
  | [] => Ok acc
  | (key, value) :: items' =>
      match conv value with
      | Ok v => load_items conv items' (<[key := v]> acc)
      | Raise e => Raise e
      end
  end.

Definition load_dict {V} (conv : json_number -> result V) (field : json_table)
  : result (gmap (list Z) V) :=
  load_items conv field ∅.

(** [list(d.items())] as [json.dumps] writes it: each item a two-element
    array, the key tuple an array of integers. *)
Definition dump_items {V} (enc : V -> json_number) (items : list (list Z * V))
  : json_table :=
  map (fun kv => (kv.1, enc kv.2)) items.

(** * UniformPolicy *)

Module UniformPolicy.

(** [predict] returns the empty dict [{}] on no actions, a list otherwise. *)
Inductive prediction : Type :=
| EmptyDict
| Probabilities (l : list float).

Definition predict (features : list float) (allowable_actions : list Z)
  : result prediction :=
  match allowable_actions with
  | [] => Ok EmptyDict
  | _ :: _ =>
      match py_truediv 1%float (float_of_int (len allowable_actions)) with
      | Ok uniform_probability =>
          Ok (Probabilities (repeat uniform_probability (length allowable_actions)))
      | Raise e => Raise e
      end
  end.

End UniformPolicy.

(** * GBDTPolicy *)

Module GBDTPolicy.

(** The calls [predict] makes outside the interpreter, in order. *)
Inductive call : Type :=
| NumpyEmpty (rows cols : nat)
| TreelitePredict (batch : list (list float)).

(** ** [numpy] arrays, as lists and lists of rows.

    The arrays of this class are [float32]: a store narrows the value to
    binary32, and the arithmetic on them is binary32 arithmetic.  It follows
    IEEE 754 and does not raise: a zero divisor yields [nan] or an infinity
    (with a [RuntimeWarning]). *)

(** The eight running sums of [numpy]'s unrolled summation loop, after
    [blocks] more blocks of eight cells. *)
Fixpoint unrolled_sums (blocks : nat) (r a : list float) : list float * list float :=
  match blocks with
  | O => (r, a)
  | S blocks' => unrolled_sums blocks' (zip_with add32 r (take 8 a)) (drop 8 a)
  end.

(** Summation of 8 to 128 cells: eight running sums over the blocks of
    eight cells, combined as a balanced tree, then the cells left over. *)
Definition block_sum (a : list float) : float :=
  let '(r, rest) := unrolled_sums (length a / 8 - 1) (take 8 a) (drop 8 a) in
  let r := fun i : nat => default 0%float (r !! i) in
  fold_left add32 rest
    (add32 (add32 (add32 (r 0%nat) (r 1%nat)) (add32 (r 2%nat) (r 3%nat)))
           (add32 (add32 (r 4%nat) (r 5%nat)) (add32 (r 6%nat) (r 7%nat)))).

(** Where an array of more than 128 cells is cut in two: at half its
    length, rounded down to a multiple of 8. *)
Definition split_point (n : nat) : nat := (n / 2 - (n / 2) mod 8)%nat.
Arguments split_point : simpl never.

(** [numpy]'s pairwise summation of a [float32] array: fewer than 8 cells
    are added one after the other, up to 128 cells by [block_sum], and a
    longer array is cut in two whose sums are added. *)
Equations pairwise_sum (a : list float) : float by wf (length a) lt :=
pairwise_sum a with le_lt_dec (length a) 128 := {
  | left _ => if (length a <? 8)%nat then fold_left add32 a 0%float else block_sum a
  | right _ =>
      let n2 := split_point (length a) in
      add32 (pairwise_sum (take n2 a)) (pairwise_sum (drop n2 a)) }.
Next Obligation.
  rewrite length_take. unfold split_point.
  assert (length a / 2 < length a)%nat by (apply Nat.div_lt; lia). lia.
Qed.
Next Obligation.
  rewrite length_drop. unfold split_point.
  assert (64 <= length a / 2)%nat by (apply (Nat.Div0.div_le_mono 128 _ 2); lia).
  pose proof (Nat.mod_upper_bound (length a / 2) 8 ltac:(lia)). lia.
Qed.

(** [a.sum()]: the reduction starts from the identity 0.0 and adds the
    pairwise sum of the cells. *)
Definition np_sum (a : list float) : float := add32 0%float (pairwise_sum a).

(** [a / s] for an array [a] and a scalar [s] *)
Definition np_divide (a : list float) (s : float) : list float :=
  map (fun x => div32 x s) a.

(** [a[i][j] = x] *)
Definition set_cell (a : list (list float)) (i j : nat) (x : float)
  : list (list float) :=
  alter (fun row => <[j := float32 x]> row) i a.

(** [a[i][lo:hi] = vals], for [vals] of length [hi - lo] *)
Definition set_slice (a : list (list float)) (i lo hi : nat) (vals : list float)
  : list (list float) :=
  alter (fun row => take lo row ++ map float32 vals ++ drop hi row) i a.

(** [numpy.array(rows, dtype=numpy.float32)] *)
Definition np_array32 (rows : list (list float)) : list (list float) :=
  map (map float32) rows.

(** [extract_policy_observations(features, labels)]: it uses neither
    [self] nor the backend, so it runs over any state [S].  [features] is a
    two-dimensional array of floats, given by its rows. *)

(** Lines 68-70: one [(i, mcts_label)] of the row [row_index]. *)
Definition append_observation {S} (features : list (list float)) (row_index : nat)
    (observations : list (list float) * list float) (labelled : nat * float)
  : M S (list (list float) * list float) :=
  let '(observation_features, observation_labels) := observations in
  let '(i, mcts_label) := labelled in
  row <- lift (py_index features row_index) ;;
  let policy_features := float_of_int (Z.of_nat i) :: row in
  ret (observation_features ++ [policy_features],
       observation_labels ++ [mcts_label]).

(** Lines 67-70: every label of the row [row_index]. *)
Definition append_observations {S} (features labels : list (list float))
    (observations : list (list float) * list float) (row_index : nat)
  : M S (list (list float) * list float) :=
  row_labels <- lift (py_index labels row_index) ;;
  foldM (append_observation features row_index) (enumerate row_labels) observations.

(** Lines 64-75: the two loops, then the conversion of the two lists to
    [float32] arrays. *)
Definition extract_policy_observations {S}
    (features : list (list float)) (labels : list (list float))
  : M S (list (list float) * list float) :=
  observations <-
    foldM (append_observations features labels) (seq 0 (length features)) ([], []) ;;
  let '(observation_features, observation_labels) := observations in
  ret (np_array32 observation_features, map float32 observation_labels).

Section Backend.

(** [self.treelite_predictor.predict], on the rows of the batch.  The
    scores come back as a [float32] array. *)
Variable treelite_predictor : list (list float) -> list float.

(** What [numpy.empty] finds in the memory it hands out. *)
Variable uninitialized : nat -> nat -> float.

Definition numpy_empty (rows cols : nat) : M (list call) (list (list float)) :=
  fun log =>
    (Ok (map (fun i => map (uninitialized i) (seq 0 cols)) (seq 0 rows)),
     log ++ [NumpyEmpty rows cols]).

(** [self.treelite_predictor.predict(TreeliteBatch.from_npy2d(batch))]:
    [from_npy2d] refuses an array without rows, and the predictor is then
    not called. *)
Definition treelite_predict (batch : list (list float)) : M (list call) (list float) :=
  match batch with
  | [] => raise TreeliteError
  | _ :: _ =>
      fun log => (Ok (map float32 (treelite_predictor batch)),
                  log ++ [TreelitePredict batch])
  end.

(** Lines 117-118: the body of the loop, for one action.  The action is a
    Python int, which the store converts with [float]. *)
Definition fill_row (agent_features : list float) (to_predict : list (list float))
    (indexed : nat * Z) : M (list call) (list (list float)) :=
  let '(i, action) := indexed in
  let num_agent_features := length agent_features in
  x <- lift (py_float_of_int action) ;;
  let to_predict := set_cell to_predict i 0%nat x in
  ret (set_slice to_predict i 1%nat (num_agent_features + 1)%nat
         (take num_agent_features agent_features)).

(** The loop of lines 116-118 on a freshly allocated [to_predict]. *)
Definition fill_to_predict (agent_features : list float)
    (allowable_actions : list Z) (to_predict : list (list float))
  : M (list call) (list (list float)) :=
  foldM (fill_row agent_features) (enumerate allowable_actions) to_predict.

Definition predict (agent_features : list float) (allowable_actions : list Z)
  : M (list call) (list float) :=
  if Z.eqb (len allowable_actions) 1 then ret [1%float]
  else
    let num_agent_features := length agent_features in
    to_predict <- numpy_empty (length allowable_actions) (num_agent_features + 1)%nat ;;
    to_predict <- fill_to_predict agent_features allowable_actions to_predict ;;
    move_probabilities <- treelite_predict to_predict ;;
    let move_probabilities := np_divide move_probabilities (np_sum move_probabilities) in
    ret move_probabilities.

End Backend.

Section Split.

(** [game_samples], and [training_samples.split_train_test] as this class
    calls it: two arguments in, four parts out. *)
Variable GameSamples : Type.
Variable split_train_test :
  GameSamples -> float ->
  list (list float) * list (list float) * list (list float) * list (list float).

(** [print(line)], on the lines printed so far. *)
Definition print (line : string) : M (list string) unit :=
  fun out => (Ok tt, out ++ [line]).

(** [extract_training_observations(game_samples, test_fraction)] *)
Definition extract_training_observations (game_samples : GameSamples)
    (test_fraction : float)
  : M (list string)
      (list (list float) * list float * list (list float) * list float) :=
  let '(train_features, train_labels, test_features, test_labels) :=
    split_train_test game_samples test_fraction in
  print "
Building policy training observations. Sit tight." ;;
  train <- extract_policy_observations train_features train_labels ;;
  test <- extract_policy_observations test_features test_labels ;;
  ret (train.1, train.2, test.1, test.2).

End Split.

End GBDTPolicy.

(** * NaiveValue *)

Module NaiveValue.

(** The attributes of the dataclass; both default to [None]. *)
Record state : Type := {
  state_visits : option (gmap (list Z) Z);
  state_wins : option (gmap (list Z) Z)
}.

Definition set_state_visits (d : option (gmap (list Z) Z)) : M state unit :=
  modify (fun self => {| state_visits := d; state_wins := state_wins self |}).

Definition set_state_wins (d : option (gmap (list Z) Z)) : M state unit :=
  modify (fun self => {| state_visits := state_visits self; state_wins := d |}).

(** [save]: the document written to [output_path]. *)
Definition save : M state json :=
  visits <- gets state_visits ;;
  visits_items <- lift (py_items visits) ;;
  wins <- gets state_wins ;;
  wins_items <- lift (py_items wins) ;;
  ret [("state_visits"%string, dump_items JInt visits_items);
       ("state_wins"%string, dump_items JInt wins_items)].

(** [load], on the document read from [model_path]. *)
Definition load (data : json) : M state unit :=
  field <- lift (json_getitem data "state_visits") ;;
  visits <- lift (load_dict json_int field) ;;
  set_state_visits (Some visits) ;;
  field <- lift (json_getitem data "state_wins") ;;
  wins <- lift (load_dict json_int field) ;;
  set_state_wins (Some wins).

(** Lines 195-199: the body of the loop of [predict], for one row.  The
    batch [features] is a sequence of rows; a row is a tuple
    ([features ~ [(0, 1, ...), ...]]), or a list or an array.  The key
    looked up is [tuple(features)], the tuple of the whole batch. *)
Definition predict_row (features : list pyobj) (values : list pynum)
    (board_features : pyobj) : M state (list pynum) :=
  try_except
    (wins <- gets state_wins ;;
     w <- lift (py_getitem_obj wins (PTuple features)) ;;
     visits <- gets state_visits ;;
     v <- lift (py_getitem_obj visits (PTuple features)) ;;
     q <- lift (py_int_truediv w v) ;;
     ret (values ++ [PyFloat q]))
    (fun e =>
       match e with
       | KeyError | ZeroDivisionError => ret (values ++ [PyInt 0])
       | _ => raise e
       end).

(** [predict(features)], for a batch of rows. *)
Definition predict (features : list pyobj) : M state (list pynum) :=
  foldM (predict_row features) features [].

Section Train.

(** [samples ~ dict(meta_info=..., features=..., labels=...)] *)
Variable Samples : Type.

(** [training_samples.split_train_test] *)
Variable split_train_test :
  Samples -> float -> string -> list (list Z * Z) * list (list Z * Z).

(** Lines 177-189: the mean absolute error on [test_set], printed. *)
Variable report_test_error : list (list Z * Z) -> M state unit.

(** [d[key] += x] on a [defaultdict(int)] *)
Definition visits_add (key : list Z) (x : Z) : M state unit :=
  d <- gets state_visits ;;
  old <- lift (py_getitem_defaultdict d key) ;;
  d' <- lift (py_setitem d key (old + x)) ;;
  set_state_visits d'.

Definition wins_add (key : list Z) (x : Z) : M state unit :=
  d <- gets state_wins ;;
  old <- lift (py_getitem_defaultdict d key) ;;
  d' <- lift (py_setitem d key (old + x)) ;;
  set_state_wins d'.

Definition delete_key (k : list Z) : M state unit :=
  d <- gets state_visits ;;
  d' <- lift (py_delitem d k) ;;
  set_state_visits d' ;;
  d <- gets state_wins ;;
  d' <- lift (py_delitem d k) ;;
  set_state_wins d'.

Definition train (samples : Samples) (test_fraction : float) : M state unit :=
  (raise (RuntimeError "Broken") : M state unit) ;;
  let '(train_set, test_set) := split_train_test samples test_fraction "value" in
  set_state_visits (Some ∅) ;;
  set_state_wins (Some ∅) ;;
  for_each train_set (fun '(features, label) =>
                        visits_add features 1 ;;
                        wins_add features label) ;;
  visits <- gets state_visits ;;
  items <- lift (py_items visits) ;;
  let to_delete := map fst (filter (fun kv => kv.2 <= 5) items) in
  for_each to_delete delete_key ;;
  report_test_error test_set.

End Train.

End NaiveValue.

(** * NaivePolicy *)

Module NaivePolicy.

(** The attributes of the dataclass; both default to [None]. *)
Record state : Type := {
  state_action_mass : option (gmap (list Z) float);
  state_action_weight : option (gmap (list Z) float)
}.

Definition set_state_action_mass (d : option (gmap (list Z) float)) : M state unit :=
  modify (fun self =>
            {| state_action_mass := d; state_action_weight := state_action_weight self |}).

Definition set_state_action_weight (d : option (gmap (list Z) float)) : M state unit :=
  modify (fun self =>
            {| state_action_mass := state_action_mass self; state_action_weight := d |}).

(** [save]: the document written to [output_path]. *)
Definition save : M state json :=
  mass <- gets state_action_mass ;;
  mass_items <- lift (py_items mass) ;;
  weight <- gets state_action_weight ;;
  weight_items <- lift (py_items weight) ;;
  ret [("state_action_mass"%string, dump_items JFloat mass_items);
       ("state_action_weight"%string, dump_items JFloat weight_items)].

(** [load], on the document read from [model_path]. *)
Definition load (data : json) : M state unit :=
  field <- lift (json_getitem data "state_action_mass") ;;
  mass <- lift (load_dict json_float field) ;;
  set_state_action_mass (Some mass) ;;
  field <- lift (json_getitem data "state_action_weight") ;;
  weight <- lift (load_dict json_float field) ;;
  set_state_action_weight (Some weight).

(** A sample: [(sample_type, features, labels)]. *)
Definition sample : Type := string * list Z * list float.

(** Lines 232-233, for one [(i, label)] of one sample. *)
Definition accumulate (features : list Z) (i : nat) (label : float) : M state unit :=
  let state_action := features ++ [Z.of_nat i] in
  mass <- gets state_action_mass ;;
  old <- lift (py_get mass state_action 0%float) ;;
  mass' <- lift (py_setitem mass state_action (PrimFloat.add old label)) ;;
  set_state_action_mass mass' ;;
  weight <- gets state_action_weight ;;
  old <- lift (py_get weight state_action 0%float) ;;
  weight' <- lift (py_setitem weight state_action (PrimFloat.add old 1%float)) ;;
  set_state_action_weight weight'.

(** Lines 227-233: the body of the loop over [samples]. *)
Definition accumulate_sample (s : sample) : M state unit :=
  let '(sample_type, features, labels) := s in
  if String.eqb sample_type "value" then ret tt
  else for_each (enumerate labels)
                (fun labelled => accumulate features labelled.1 labelled.2).

(** Lines 224-233: fresh tables, then the accumulation over [samples]. *)
Definition train_accumulate (samples : list sample) : M state unit :=
  set_state_action_mass (Some ∅) ;;
  set_state_action_weight (Some ∅) ;;
  for_each samples accumulate_sample.

Definition delete_key (k : list Z) : M state unit :=
  d <- gets state_action_mass ;;
  d' <- lift (py_delitem d k) ;;
  set_state_action_mass d' ;;
  d <- gets state_action_weight ;;
  d' <- lift (py_delitem d k) ;;
  set_state_action_weight d'.

(** Lines 235-242: delete the keys that are too infrequent. *)
Definition train_prune : M state unit :=
  weight <- gets state_action_weight ;;
  items <- lift (py_items weight) ;;
  let to_delete := map fst (filter (fun kv => PrimFloat.leb kv.2 5%float = true) items) in
  for_each to_delete delete_key.

Definition train (samples : list sample) : M state unit :=
  train_accumulate samples ;;
  train_prune.

(** Lines 248-249: the body of the loop of [predict], for one action. *)
Definition predict_action (features : list Z) (move_probabilities : list float)
    (indexed : nat * Z) : M state (list float) :=
  let '(i, action) := indexed in
  let state_action := features ++ [Z.of_nat i] in
  mass <- gets state_action_mass ;;
  m <- lift (py_getitem mass state_action) ;;
  weight <- gets state_action_weight ;;
  w <- lift (py_getitem weight state_action) ;;
  p <- lift (py_truediv m w) ;;
  ret (move_probabilities ++ [p]).

(** Lines 254-255: the uniform policy of the [except KeyError] branch. *)
Definition uniform (allowable_actions : list Z) : M state (list float) :=
  uniform_probability <-
    lift (py_truediv 1%float (float_of_int (len allowable_actions))) ;;
  ret (repeat uniform_probability (length allowable_actions)).

Definition predict (features : list Z) (allowable_actions : list Z)
  : M state (list float) :=
  try_except
    (foldM (predict_action features) (enumerate allowable_actions) [])
    (fun e =>
       match e with
       | KeyError => uniform allowable_actions
       | _ => raise e
       end).

End NaivePolicy.

(** * Vocabulary of the statements *)

(** A binary64 datum that is a number other than zero. *)
Definition nonzero_number (x : spec_float) : Prop :=
  match x with
  | S754_finite _ _ _ | S754_infinity _ => True
  | S754_zero _ | S754_nan => False
  end.

(** The two tables of a tabular policy estimator exist and have the same
    keys. *)
Definition same_keys (self : NaivePolicy.state) : Prop :=
  exists mass weight : gmap (list Z) float,
    NaivePolicy.state_action_mass self = Some mass /\
    NaivePolicy.state_action_weight self = Some weight /\
    forall key, is_Some (mass !! key) <-> is_Some (weight !! key).

(** The keys a sample adds to, one per label, in the order of the loop. *)
Definition sample_keys (s : NaivePolicy.sample) : list (list Z) :=
  let '(sample_type, features, labels) := s in
  if String.eqb sample_type "value" then []
  else map (fun labelled : nat * float => features ++ [Z.of_nat labelled.1])
           (enumerate labels).

(** How many times the training run adds to [key]. *)
Definition occurrences (key : list Z) (samples : list NaivePolicy.sample) : nat :=
  length (filter (fun k => k = key) (flat_map sample_keys samples)).

(** One more observation of a key: [d[k] = d.get(k, 0.0) + 1.0]. *)
Definition bump (weight : option float) : option float :=
  Some (PrimFloat.add (default 0%float weight) 1).

(** [float(action)] exists: the nearest binary64 value is finite. *)
Definition in_float_range (action : Z) : bool :=
  negb (PrimFloat.is_infinity (float_of_int action)).

(** The Python float [x] is a binary32 value: a [float32] cell holds it
    unchanged. *)
Definition is_float32 (x : float) : Prop := float32 x = x.

(** The rows [GBDTPolicy.predict] builds: one per action, the action and
    then the agent features, as [float32] cells. *)
Definition policy_rows (agent_features : list float) (allowable_actions : list Z)
  : list (list float) :=
  map (fun action => map float32 (float_of_int action :: agent_features))
      allowable_actions.

(** The rows [extract_policy_observations] builds for one state: one per
    label, the index of the label and then the features of the state, as
    [float32] cells. *)
Definition observation_rows (row row_labels : list float) : list (list float) :=
  map (fun labelled : nat * float =>
         map float32 (float_of_int (Z.of_nat labelled.1) :: row))
      (enumerate row_labels).

(** The samples the accumulation does not skip. *)
Definition policy_samples (samples : list NaivePolicy.sample)
  : list NaivePolicy.sample :=
  List.filter (fun s : NaivePolicy.sample => negb (String.eqb s.1.1 "value")) samples.

(** The labels a sample gives to [key], in the order of the loop. *)
Definition sample_labels (key : list Z) (s : NaivePolicy.sample) : list float :=
  let '(sample_type, features, labels) := s in
  if String.eqb sample_type "value" then []
  else map snd (filter (fun labelled : nat * float =>
                          features ++ [Z.of_nat labelled.1] = key)
                       (enumerate labels)).

(** One more label for a key: [d[k] = d.get(k, 0.0) + label]. *)
Definition add_label (mass : option float) (label : float) : option float :=
  Some (PrimFloat.add (default 0%float mass) label).

(** * Example inputs *)

(** Estimator objects as the dataclasses create them. *)
Definition untrained_policy : NaivePolicy.state :=
  {| NaivePolicy.state_action_mass := None;
     NaivePolicy.state_action_weight := None |}.

Definition untrained_value : NaiveValue.state :=
  {| NaiveValue.state_visits := None; NaiveValue.state_wins := None |}.

(** Twelve policy samples of the state [[0]]: six with the one-action label
    vector [[1.0]], six with the two-action label vector [[0.0, 1.0]]. *)
Definition ragged_samples : list NaivePolicy.sample :=
  repeat ("policy"%string, [0], [1%float]) 6
  ++ repeat ("policy"%string, [0], [0%float; 1%float]) 6.

(** [n] policy samples of the state [[0]] with the label vector [[1.0]]. *)
Definition repeated_samples (n : nat) : list NaivePolicy.sample :=
  repeat ("policy"%string, [0], [1%float]) n.

(** A value estimator that has seen the state [(0, 1)] six times and won
    three of them. *)
Definition seen_value : NaiveValue.state :=
  {| NaiveValue.state_visits := Some {[ [0; 1] := 6 ]};
     NaiveValue.state_wins := Some {[ [0; 1] := 3 ]} |}.

(** Backends that score every row 0.0, or every row 0.5. *)
Definition zero_backend (batch : list (list float)) : list float :=
  map (fun _ => 0%float) batch.

Definition half_backend (batch : list (list float)) : list float :=
  map (fun _ => 0.5%float) batch.

(** The Python floats 0.1, 0.2 and 0.8, and the binary32 values nearest to
    them: 0.10000000149011612, 0.20000000298023224, 0.80000001192092896. *)
Definition one_tenth : float := 0x1.999999999999ap-4%float.
Definition one_fifth : float := 0x1.999999999999ap-3%float.
Definition four_fifths : float := 0x1.999999999999ap-1%float.
Definition one_tenth32 : float := 0x1.99999ap-4%float.
Definition one_fifth32 : float := 0x1.99999ap-3%float.
Definition four_fifths32 : float := 0x1.99999ap-1%float.

(** Fresh memory that happens to hold 42.0 everywhere. *)
Definition stale_memory (i j : nat) : float := 42%float.

(** A [split_train_test] that keeps every sample for training, and a
    report that prints nothing. *)
Definition keep_all (samples : list (list Z * Z)) (test_fraction : float)
    (kind : string) : list (list Z * Z) * list (list Z * Z) :=
  (samples, []).

Definition no_report (test_set : list (list Z * Z)) : M NaiveValue.state unit :=
  ret tt.

(** A policy estimator read from a file whose first weight is 0.0. *)
Definition zero_weight_policy : NaivePolicy.state :=
  {| NaivePolicy.state_action_mass := Some {[ [0; 0] := 1%float ]};
     NaivePolicy.state_action_weight := Some {[ [0; 0] := 0%float ]} |}.

(** A document that has the visits of a value estimator and nothing else. *)
Definition visits_only_document : json :=
  [("state_visits"%string, [([0; 1], JInt 6)])].


(** A [split_train_test] for the policy observations: the first game sample
    is for training, the rest for testing. *)
Definition first_for_training (game_samples : list (list float * list float))
    (test_fraction : float)
  : list (list float) * list (list float) * list (list float) * list (list float) :=
  (map fst (take 1 game_samples), map snd (take 1 game_samples),
   map fst (drop 1 game_samples), map snd (drop 1 game_samples)).

(** The default [test_fraction=.2]. *)
Definition default_test_fraction : float := 0x1.999999999999ap-3%float.

(** * Facts about binary64 arithmetic *)

Section Binary64.

Lemma digits2_pos_bounds (p : positive) :
  2 ^ (Z.pos (digits2_pos p) - 1) <= Z.pos p < 2 ^ Z.pos (digits2_pos p).
Proof.
  induction p as [p IH | p IH |]; simpl digits2_pos.
  - rewrite Pos2Z.inj_succ.
    replace (Z.succ (Z.pos (digits2_pos p)) - 1) with (Z.succ (Z.pos (digits2_pos p) - 1)) by lia.
    rewrite !Z.pow_succ_r by lia. lia.
  - rewrite Pos2Z.inj_succ.
    replace (Z.succ (Z.pos (digits2_pos p)) - 1) with (Z.succ (Z.pos (digits2_pos p) - 1)) by lia.
    rewrite !Z.pow_succ_r by lia. lia.
  - simpl. lia.
Qed.

Lemma shr_1_m (mrs : shr_record) :
  0 <= shr_m mrs -> shr_m (shr_1 mrs) = shr_m mrs / 2.
Proof.
  destruct mrs as [m r s]; cbn [shr_m]. intros Hm.
  destruct m as [| [p | p |] |]; cbn [shr_1 shr_m]; try lia;
    first [ reflexivity
          | apply Z.div_unique with (r := 1); lia
          | apply Z.div_unique with (r := 0); lia ].
Qed.

Lemma iter_pos_shr_1_m (k : positive) :
  forall mrs, 0 <= shr_m mrs ->
    shr_m (SpecFloat.iter_pos shr_1 k mrs) = shr_m mrs / 2 ^ Z.pos k.
Proof.
  assert (Hstep : forall mrs, 0 <= shr_m mrs -> 0 <= shr_m (shr_1 mrs)).
  { intros mrs H. rewrite shr_1_m by done. apply Z.div_pos; lia. }
  induction k as [k IH | k IH |]; intros mrs Hm; cbn [SpecFloat.iter_pos].
  - rewrite IH, IH, shr_1_m; auto.
    + rewrite !Z.div_div by lia. f_equal.
      replace (Z.pos k~1) with (1 + Z.pos k + Z.pos k) by lia.
      rewrite !Z.pow_add_r by lia. change (2 ^ 1) with 2. ring.
    + rewrite IH by auto. apply Z.div_pos; [auto | lia].
  - rewrite IH, IH; auto.
    + rewrite !Z.div_div by lia. f_equal.
      replace (Z.pos k~0) with (Z.pos k + Z.pos k) by lia.
      rewrite !Z.pow_add_r by lia. ring.
    + rewrite IH by auto. apply Z.div_pos; [auto | lia].
  - rewrite shr_1_m by done. reflexivity.
Qed.

Lemma shr_fexp_pos (m e : Z) (l : location) :
  0 < m -> SpecFloat.emin prec emax <= e ->
  0 < shr_m (shr_fexp prec emax m e l).1 /\ SpecFloat.emin prec emax <= (shr_fexp prec emax m e l).2.
Proof.
  intros Hm He. destruct m as [| p |]; try lia.
  unfold shr_fexp, shr. simpl Zdigits2.
  assert (Hrec : shr_m (shr_record_of_loc (Z.pos p) l) = Z.pos p).
  { destruct l as [| []]; reflexivity. }
  destruct (SpecFloat.fexp prec emax (Z.pos (digits2_pos p) + e) - e) as [| k |] eqn:Hn;
    simpl; rewrite ?Hrec; try (split; lia).
  unfold SpecFloat.fexp in Hn.
  rewrite iter_pos_shr_1_m by (rewrite Hrec; lia). rewrite Hrec.
  split; [| unfold SpecFloat.emin, prec, emax in *; lia].
  apply Z.div_str_pos. split; [lia |].
  pose proof (digits2_pos_bounds p) as [Hlo _].
  eapply Z.le_trans; [| exact Hlo].
  apply Z.pow_le_mono_r; [lia |].
  unfold SpecFloat.emin, prec, emax in *. lia.
Qed.

Lemma round_nearest_even_pos (m : Z) (l : location) :
  0 < m -> 0 < round_nearest_even m l.
Proof.
  intros Hm. destruct l as [| []]; simpl; try lia. destruct (Z.even m); lia.
Qed.

Lemma binary_round_aux_nonzero (sx : bool) (m e : Z) (l : location) :
  0 < m -> SpecFloat.emin prec emax <= e ->
  nonzero_number (binary_round_aux prec emax sx m e l).
Proof.
  intros Hm He. unfold binary_round_aux.
  pose proof (shr_fexp_pos m e l Hm He) as [H1 H1e].
  destruct (shr_fexp prec emax m e l) as [mrs' e']. simpl in H1, H1e.
  pose proof (round_nearest_even_pos _ (loc_of_shr_record mrs') H1) as H2.
  pose proof (shr_fexp_pos _ e' loc_Exact H2 H1e) as [H3 _].
  destruct (shr_fexp prec emax _ e' loc_Exact) as [mrs'' e'']. simpl in H3.
  destruct (shr_m mrs''); try lia.
  destruct (e'' <=? emax - prec); exact I.
Qed.

Lemma binary_normalize_nonzero (p : positive) :
  nonzero_number (binary_normalize prec emax (Z.pos p) 0 false).
Proof.
  unfold binary_normalize, binary_round, shl_align.
  destruct (SpecFloat.fexp prec emax (Z.pos (digits2_pos p) + 0) - 0) as [| k | k] eqn:Hn;
    apply binary_round_aux_nonzero; try lia; try (vm_compute; discriminate).
  unfold SpecFloat.fexp, SpecFloat.emin, prec, emax in *. lia.
Qed.

Lemma float_of_int_uint63 (i : int) : float_of_int (Uint63.to_Z i) = of_uint63 i.
Proof.
  unfold float_of_int. rewrite <- of_uint63_spec. apply SF2Prim_Prim2SF.
Qed.

(** [float(z)] is not zero for an int [z] in [1, 2^63). *)
Lemma float_of_int_nonzero (z : Z) :
  0 < z < 2 ^ 63 -> PrimFloat.eqb (float_of_int z) 0 = false.
Proof.
  intros Hz.
  assert (Hi : Uint63.to_Z (Uint63.of_Z z) = z).
  { rewrite Uint63.of_Z_spec. apply Z.mod_small.
    change wB with (2 ^ 63). lia. }
  assert (Hf : float_of_int z = of_uint63 (Uint63.of_Z z)).
  { rewrite <- float_of_int_uint63, Hi. reflexivity. }
  rewrite Hf, FloatAxioms.eqb_spec, of_uint63_spec, Hi.
  destruct z as [| p |]; try lia.
  pose proof (binary_normalize_nonzero p) as Hnz.
  change (Prim2SF 0) with (S754_zero false).
  destruct (binary_normalize prec emax (Z.pos p) 0 false) as [| s | | s m e];
    simpl in Hnz; try tauto; destruct s; reflexivity.
Qed.

Lemma eqb_zero_inv (x : float) :
  PrimFloat.eqb x 0 = true -> x = 0%float \/ x = (-0)%float.
Proof.
  rewrite FloatAxioms.eqb_spec. change (Prim2SF 0) with (S754_zero false).
  intros H.
  destruct (Prim2SF x) as [s | s | | s m e] eqn:Hx; try (destruct s; discriminate); try discriminate.
  destruct s; [right | left]; apply Prim2SF_inj; rewrite Hx; reflexivity.
Qed.

Lemma leb_5_false_nonzero (w : float) :
  PrimFloat.leb w 5 = false -> PrimFloat.eqb w 0 = false.
Proof.
  rewrite FloatAxioms.leb_spec, FloatAxioms.eqb_spec.
  change (Prim2SF 0) with (S754_zero false).
  change (Prim2SF 5) with (S754_finite false 5629499534213120 (-50)).
  destruct (Prim2SF w) as [[] | [] | | [] m e];
    cbv [SFleb SFeqb SFcompare]; congruence.
Qed.

Lemma SFleb_finite_pos (m1 m2 : positive) (e1 e2 : Z) :
  SFleb (S754_finite false m1 e1) (S754_finite false m2 e2) =
  match e1 ?= e2 with
  | Lt => true
  | Gt => false
  | Eq => (m1 <=? m2)%positive
  end.
Proof.
  unfold SFleb, SFcompare, Pos.leb, Pos.compare.
  destruct (e1 ?= e2); reflexivity.
Qed.

Lemma leb_6_true_leb_5_false (w : float) :
  PrimFloat.leb 6 w = true -> PrimFloat.leb w 5 = false.
Proof.
  rewrite !FloatAxioms.leb_spec.
  change (Prim2SF 5) with (S754_finite false 5629499534213120 (-50)).
  change (Prim2SF 6) with (S754_finite false 6755399441055744 (-50)).
  destruct (Prim2SF w) as [[] | [] | | [] m e];
    try (intros H; discriminate H); try (intros _; exact eq_refl).
  rewrite !SFleb_finite_pos, (Z.compare_antisym e (-50)).
  destruct (e ?= -50); cbn [CompOpp];
    try (intros H; discriminate H); try (intros _; exact eq_refl).
  rewrite Pos.leb_le, Pos.leb_gt. intros H.
  eapply Pos.lt_le_trans; [| exact H]. exact eq_refl.
Qed.
End Binary64.

(** * Facts about loops *)

Lemma length_enumerate_from {A} (n : nat) (l : list A) :
  length (enumerate_from n l) = length l.
Proof. revert n. induction l as [| x l IH]; intros n; simpl; [done | by rewrite IH]. Qed.

(** * GBDTPolicy: row construction *)

Lemma foldM_cons {S A B} (body : B -> A -> M S B) (x : A) (l : list A) (b : B) (s : S) :
  foldM body (x :: l) b s
  = match body b x s with
    | (Ok b', s') => foldM body l b' s'
    | (Raise e, s') => (Raise e, s')
    end.
Proof. reflexivity. Qed.

Lemma py_float_of_int_in_range (action : Z) :
  in_float_range action = true -> py_float_of_int action = Ok (float_of_int action).
Proof.
  unfold in_float_range, py_float_of_int. cbv zeta.
  by destruct (PrimFloat.is_infinity (float_of_int action)).
Qed.

Lemma py_float_of_int_overflow (action : Z) :
  in_float_range action = false -> py_float_of_int action = Raise OverflowError.
Proof.
  unfold in_float_range, py_float_of_int. cbv zeta.
  by destruct (PrimFloat.is_infinity (float_of_int action)).
Qed.

Lemma actions_in_float_range (allowable_actions : list Z) :
  Forall (fun action => in_float_range action = true) allowable_actions \/
  Exists (fun action => in_float_range action = false) allowable_actions.
Proof.
  induction allowable_actions as [| action l [IH | IH]].
  - left. constructor.
  - destruct (in_float_range action) eqn:Hrange.
    + left. by constructor.
    + right. by constructor.
  - right. by constructor 2.
Qed.

Section GBDTPolicyFacts.

Variable treelite_predictor : list (list float) -> list float.
Variable uninitialized : nat -> nat -> float.

Lemma fill_row_cells (agent_features : list float) (x : float) (row : list float) :
  length row = S (length agent_features) ->
  take 1 (<[0%nat := float32 x]> row)
    ++ map float32 (take (length agent_features) agent_features)
    ++ drop (length agent_features + 1) (<[0%nat := float32 x]> row)
  = map float32 (x :: agent_features).
Proof.
  intros Hrow. destruct row as [| r0 rest]; [discriminate |].
  simpl in Hrow. injection Hrow as Hrest.
  rewrite (take_ge agent_features) by lia.
  replace (length agent_features + 1)%nat with (S (length agent_features)) by lia.
  simpl. rewrite drop_ge by lia. by rewrite app_nil_r.
Qed.

Lemma fill_row_ok (agent_features : list float) (a : list (list float)) (n : nat)
    (action : Z) (row : list float) (log : list GBDTPolicy.call) :
  in_float_range action = true ->
  a !! n = Some row ->
  length row = S (length agent_features) ->
  GBDTPolicy.fill_row agent_features a (n, action) log
  = (Ok (<[n := map float32 (float_of_int action :: agent_features)]> a), log).
Proof.
  intros Hrange Hn Hrow.
  unfold GBDTPolicy.fill_row, bind, lift, ret.
  rewrite py_float_of_int_in_range by done.
  unfold GBDTPolicy.set_slice, GBDTPolicy.set_cell.
  rewrite list_alter_alter_eq. do 2 f_equal.
  apply list_eq. intros i. destruct (decide (i = n)) as [-> | Hne].
  - rewrite list_lookup_alter_eq, Hn, list_lookup_insert_eq by (by eapply lookup_lt_Some).
    simpl. f_equal. by apply fill_row_cells.
  - by rewrite list_lookup_alter_ne, list_lookup_insert_ne.
Qed.

Lemma fill_to_predict_from (agent_features : list float) (l : list Z)
    (log : list GBDTPolicy.call) :
  Forall (fun action => in_float_range action = true) l ->
  forall (n : nat) (a : list (list float)),
    length a = (n + length l)%nat ->
    (forall i row, a !! i = Some row -> length row = S (length agent_features)) ->
    foldM (GBDTPolicy.fill_row agent_features) (enumerate_from n l) a log
    = (Ok (take n a ++ policy_rows agent_features l), log).
Proof.
  induction 1 as [| action l Hrange _ IH]; intros n a Hlen Hrows.
  - simpl. unfold ret. rewrite app_nil_r, take_ge; [done | simpl in Hlen; lia].
  - simpl in Hlen. cbn [enumerate_from].
    destruct (lookup_lt_is_Some_2 a n ltac:(lia)) as [row Hrow].
    rewrite foldM_cons, (fill_row_ok _ _ _ _ row) by eauto.
    rewrite IH.
    + rewrite (take_S_r _ _ (map float32 (float_of_int action :: agent_features)))
        by (apply list_lookup_insert_eq; by eapply lookup_lt_Some).
      rewrite take_insert_ge by lia. unfold policy_rows. cbn [map].
      by rewrite <- app_assoc.
    + rewrite length_insert. lia.
    + intros i r Hi.
      destruct (decide (i = n)) as [-> | Hne].
      * rewrite list_lookup_insert_eq in Hi by (by eapply lookup_lt_Some).
        injection Hi as <-. simpl. by rewrite length_map.
      * rewrite list_lookup_insert_ne in Hi by done. eauto.
Qed.

Lemma fill_to_predict_rows (agent_features : list float) (allowable_actions : list Z)
    (log : list GBDTPolicy.call) :
  Forall (fun action => in_float_range action = true) allowable_actions ->
  GBDTPolicy.fill_to_predict agent_features allowable_actions
    (map (fun i => map (uninitialized i) (seq 0 (length agent_features + 1)))
         (seq 0 (length allowable_actions))) log
  = (Ok (policy_rows agent_features allowable_actions), log).
Proof.
  intros Hrange. unfold GBDTPolicy.fill_to_predict, enumerate.
  rewrite fill_to_predict_from.
  - done.
  - done.
  - by rewrite length_map, length_seq.
  - intros i row Hi. rewrite list_lookup_fmap in Hi.
    destruct (seq 0 (length allowable_actions) !! i); [| discriminate].
    injection Hi as <-. rewrite length_map, length_seq. lia.
Qed.

(** The loop stops at the first action that [float] refuses. *)
Lemma fill_to_predict_overflow (agent_features : list float) (l : list Z)
    (log : list GBDTPolicy.call) :
  Exists (fun action => in_float_range action = false) l ->
  forall (n : nat) (a : list (list float)),
    length a = (n + length l)%nat ->
    (forall i row, a !! i = Some row -> length row = S (length agent_features)) ->
    foldM (GBDTPolicy.fill_row agent_features) (enumerate_from n l) a log
    = (Raise OverflowError, log).
Proof.
  induction l as [| action l IH]; intros Hbad n a Hlen Hrows;
    [by apply Exists_nil in Hbad |].
  cbn [enumerate_from]. rewrite foldM_cons. simpl in Hlen.
  destruct (in_float_range action) eqn:Hrange.
  - destruct (lookup_lt_is_Some_2 a n ltac:(lia)) as [row Hrow].
    rewrite (fill_row_ok _ _ _ _ row) by eauto.
    apply IH.
    + apply Exists_cons in Hbad as [Hbad | Hbad]; [congruence | done].
    + rewrite length_insert. lia.
    + intros i r Hi.
      destruct (decide (i = n)) as [-> | Hne].
      * rewrite list_lookup_insert_eq in Hi by (by eapply lookup_lt_Some).
        injection Hi as <-. simpl. by rewrite length_map.
      * rewrite list_lookup_insert_ne in Hi by done. eauto.
  - unfold GBDTPolicy.fill_row, bind, lift.
    by rewrite py_float_of_int_overflow.
Qed.

Lemma length_policy_rows (agent_features : list float) (allowable_actions : list Z) :
  length (policy_rows agent_features allowable_actions) = length allowable_actions.
Proof. apply length_map. Qed.

Lemma predict_unfold (agent_features : list float) (allowable_actions : list Z)
    (log : list GBDTPolicy.call) :
  (1 < length allowable_actions)%nat ->
  Forall (fun action => in_float_range action = true) allowable_actions ->
  let rows := policy_rows agent_features allowable_actions in
  let scores := map float32 (treelite_predictor rows) in
  GBDTPolicy.predict treelite_predictor uninitialized agent_features
    allowable_actions log
  = (Ok (GBDTPolicy.np_divide scores (GBDTPolicy.np_sum scores)),
     log ++ [GBDTPolicy.NumpyEmpty (length allowable_actions)
               (length agent_features + 1);
             GBDTPolicy.TreelitePredict rows]).
Proof.
  intros Hlen Hrange rows scores. unfold GBDTPolicy.predict, len.
  destruct (Z.eqb_spec (Z.of_nat (length allowable_actions)) 1) as [Heq | _]; [lia |].
  unfold bind at 1. unfold GBDTPolicy.numpy_empty.
  unfold bind at 1. rewrite fill_to_predict_rows by done.
  fold rows. unfold bind, GBDTPolicy.treelite_predict, ret.
  destruct rows as [| row rows'] eqn:Hrows.
  - apply (f_equal length) in Hrows. subst rows.
    rewrite length_policy_rows in Hrows. simpl in Hrows. lia.
  - subst scores. by rewrite <- app_assoc.
Qed.

(** When some action is refused by [float], the array has been allocated
    and the backend is not reached. *)
Lemma predict_overflow (agent_features : list float) (allowable_actions : list Z)
    (log : list GBDTPolicy.call) :
  length allowable_actions <> 1%nat ->
  Exists (fun action => in_float_range action = false) allowable_actions ->
  GBDTPolicy.predict treelite_predictor uninitialized agent_features
    allowable_actions log
  = (Raise OverflowError,
     log ++ [GBDTPolicy.NumpyEmpty (length allowable_actions)
               (length agent_features + 1)]).
Proof.
  intros Hlen Hbad. unfold GBDTPolicy.predict, len.
  destruct (Z.eqb_spec (Z.of_nat (length allowable_actions)) 1) as [Heq | _]; [lia |].
  unfold bind at 1. unfold GBDTPolicy.numpy_empty.
  unfold bind at 1. unfold GBDTPolicy.fill_to_predict, enumerate.
  rewrite fill_to_predict_overflow; [done | done | |].
  - by rewrite length_map, length_seq.
  - intros i row Hi. rewrite list_lookup_fmap in Hi.
    destruct (seq 0 (length allowable_actions) !! i); [| discriminate].
    injection Hi as <-. rewrite length_map, length_seq. lia.
Qed.

(** Without actions the array has no rows and [from_npy2d] refuses it. *)
Lemma predict_no_rows (agent_features : list float) (log : list GBDTPolicy.call) :
  GBDTPolicy.predict treelite_predictor uninitialized agent_features [] log
  = (Raise TreeliteError,
     log ++ [GBDTPolicy.NumpyEmpty 0 (length agent_features + 1)]).
Proof. reflexivity. Qed.

(** C5 (amended). For agent features of length F and A > 1 allowable
    actions, each of which [float] accepts, [predict] allocates an
    A x (F+1) array and hands the backend exactly A rows of length F+1: row i
    is [allowable_actions[i]] followed by the agent features, each value
    narrowed to [float32], hence these values themselves when they are
    binary32 values.  If [float] refuses one of the actions, [predict]
    raises [OverflowError] after the allocation and the backend is not
    called. *)
Theorem GBDTPolicy_predict_expands_rows (agent_features : list float)
    (allowable_actions : list Z) (log : list GBDTPolicy.call) :
  (1 < length allowable_actions)%nat ->
  (Forall (fun action => in_float_range action = true) allowable_actions ->
   exists rows : list (list float),
     GBDTPolicy.predict treelite_predictor uninitialized agent_features
       allowable_actions log
     = (Ok (GBDTPolicy.np_divide (map float32 (treelite_predictor rows))
              (GBDTPolicy.np_sum (map float32 (treelite_predictor rows)))),
        log ++ [GBDTPolicy.NumpyEmpty (length allowable_actions)
                  (length agent_features + 1);
                GBDTPolicy.TreelitePredict rows]) /\
     length rows = length allowable_actions /\
     Forall (fun row => length row = (length agent_features + 1)%nat) rows /\
     (forall i action, allowable_actions !! i = Some action ->
        rows !! i = Some (map float32 ([float_of_int action] ++ agent_features))) /\
     (forall i action, allowable_actions !! i = Some action ->
        Forall is_float32 ([float_of_int action] ++ agent_features) ->
        rows !! i = Some ([float_of_int action] ++ agent_features))) /\
  (Exists (fun action => in_float_range action = false) allowable_actions ->
   GBDTPolicy.predict treelite_predictor uninitialized agent_features
     allowable_actions log
   = (Raise OverflowError,
      log ++ [GBDTPolicy.NumpyEmpty (length allowable_actions)
                (length agent_features + 1)])).
Proof.
  intros HA. split.
  - intros Hrange. exists (policy_rows agent_features allowable_actions).
    assert (Hrows : forall i action, allowable_actions !! i = Some action ->
              policy_rows agent_features allowable_actions !! i
              = Some (map float32 ([float_of_int action] ++ agent_features))).
    { intros i action Hi. unfold policy_rows. by rewrite list_lookup_fmap, Hi. }
    split; [| split; [| split; [| split]]].
    + by rewrite predict_unfold.
    + apply length_policy_rows.
    + apply Forall_forall. intros row Hrow.
      apply list_elem_of_fmap in Hrow as (a & -> & _).
      rewrite length_map. simpl. lia.
    + exact Hrows.
    + intros i action Hi Hexact. rewrite (Hrows i action Hi). f_equal.
      clear -Hexact. induction Hexact as [| x l Hx _ IH]; [done |].
      cbn [map]. by rewrite Hx, IH.
  - intros Hbad. apply predict_overflow; [lia | done].
Qed.

(** C7. With exactly one allowable action [predict] returns [[1.0]] and
    makes no call at all: no array is allocated and the backend is not
    invoked, whatever the backend is. *)
Theorem GBDTPolicy_predict_single_action (agent_features : list float)
    (allowable_actions : list Z) (log : list GBDTPolicy.call) :
  length allowable_actions = 1%nat ->
  GBDTPolicy.predict treelite_predictor uninitialized agent_features
    allowable_actions log
  = (Ok [1%float], log).
Proof.
  intros HA. unfold GBDTPolicy.predict, len. rewrite HA. reflexivity.
Qed.

Lemma add32_zero_zero (x y : float) :
  x = 0%float \/ x = (-0)%float -> y = 0%float \/ y = (-0)%float ->
  add32 x y = 0%float \/ add32 x y = (-0)%float.
Proof. intros [-> | ->] [-> | ->]; vm_compute; auto. Qed.

Lemma div32_zero_zero (x y : float) :
  x = 0%float \/ x = (-0)%float -> y = 0%float \/ y = (-0)%float ->
  div32 x y = nan.
Proof. intros [-> | ->] [-> | ->]; reflexivity. Qed.

Lemma float32_zero (x : float) :
  x = 0%float \/ x = (-0)%float -> float32 x = 0%float \/ float32 x = (-0)%float.
Proof. intros [-> | ->]; vm_compute; auto. Qed.

Lemma fold_left_add32_zeros (l : list float) :
  Forall (fun x => x = 0%float \/ x = (-0)%float) l ->
  forall x, x = 0%float \/ x = (-0)%float ->
    fold_left add32 l x = 0%float \/ fold_left add32 l x = (-0)%float.
Proof.
  induction 1 as [| y l Hy _ IH]; intros x Hx; simpl; [done |].
  by apply IH, add32_zero_zero.
Qed.

Lemma zip_with_add32_zeros (r b : list float) :
  Forall (fun x => x = 0%float \/ x = (-0)%float) r ->
  Forall (fun x => x = 0%float \/ x = (-0)%float) b ->
  Forall (fun x => x = 0%float \/ x = (-0)%float) (zip_with add32 r b).
Proof.
  intros Hr. revert b. induction Hr as [| x r Hx _ IH]; intros b Hb; [constructor |].
  destruct Hb as [| y b Hy Hb]; [constructor |].
  simpl. constructor; [by apply add32_zero_zero | by apply IH].
Qed.

Lemma unrolled_sums_zeros (blocks : nat) :
  forall r a : list float,
    Forall (fun x => x = 0%float \/ x = (-0)%float) r ->
    Forall (fun x => x = 0%float \/ x = (-0)%float) a ->
    Forall (fun x => x = 0%float \/ x = (-0)%float)
           (GBDTPolicy.unrolled_sums blocks r a).1 /\
    Forall (fun x => x = 0%float \/ x = (-0)%float)
           (GBDTPolicy.unrolled_sums blocks r a).2.
Proof.
  induction blocks as [| blocks IH]; intros r a Hr Ha; simpl; [done |].
  apply IH.
  - apply zip_with_add32_zeros; [done | by apply Forall_take].
  - by apply Forall_drop.
Qed.

Lemma block_sum_zeros (a : list float) :
  Forall (fun x => x = 0%float \/ x = (-0)%float) a ->
  GBDTPolicy.block_sum a = 0%float \/ GBDTPolicy.block_sum a = (-0)%float.
Proof.
  intros Ha. unfold GBDTPolicy.block_sum.
  destruct (unrolled_sums_zeros (length a / 8 - 1) (take 8 a) (drop 8 a))
    as [Hr Hrest]; [by apply Forall_take | by apply Forall_drop |].
  destruct (GBDTPolicy.unrolled_sums _ _ _) as [r rest]. simpl in Hr, Hrest.
  assert (Hcell : forall i : nat,
            default 0%float (r !! i) = 0%float \/ default 0%float (r !! i) = (-0)%float).
  { intros i. destruct (r !! i) as [x |] eqn:Hi; simpl; [| by left].
    by apply (Forall_lookup_1 _ _ _ _ Hr Hi). }
  apply fold_left_add32_zeros; [done |].
  repeat apply add32_zero_zero; apply Hcell.
Qed.

Lemma pairwise_sum_zeros (a : list float) :
  Forall (fun x => x = 0%float \/ x = (-0)%float) a ->
  GBDTPolicy.pairwise_sum a = 0%float \/ GBDTPolicy.pairwise_sum a = (-0)%float.
Proof.
  funelim (GBDTPolicy.pairwise_sum a); intros Ha.
  - destruct (length a <? 8)%nat.
    + apply fold_left_add32_zeros; [done | by left].
    + by apply block_sum_zeros.
  - apply add32_zero_zero; [apply H | apply H0].
    + by apply Forall_take.
    + by apply Forall_drop.
Qed.

Lemma np_sum_zeros (scores : list float) :
  Forall (fun x => x = 0%float \/ x = (-0)%float) scores ->
  GBDTPolicy.np_sum scores = 0%float \/ GBDTPolicy.np_sum scores = (-0)%float.
Proof.
  intros Hz. unfold GBDTPolicy.np_sum.
  apply add32_zero_zero; [by left | by apply pairwise_sum_zeros].
Qed.

Lemma np_divide_zeros (scores : list float) :
  Forall (fun x => x = 0%float \/ x = (-0)%float) scores ->
  GBDTPolicy.np_divide scores (GBDTPolicy.np_sum scores) = map (fun _ => nan) scores.
Proof.
  intros Hz. pose proof (np_sum_zeros scores Hz) as Hs.
  unfold GBDTPolicy.np_divide. apply map_ext_Forall.
  eapply Forall_impl; [exact Hz |]. intros x Hx. simpl.
  by apply div32_zero_zero.
Qed.

(** C3 (amended). When the backend scores are all zero the normalisation
    does not raise: [predict] returns, and every entry of the result is
    [nan], one per score. *)
Theorem GBDTPolicy_predict_all_zero_scores (agent_features : list float)
    (allowable_actions : list Z) (log : list GBDTPolicy.call) :
  (1 < length allowable_actions)%nat ->
  Forall (fun action => in_float_range action = true) allowable_actions ->
  let scores :=
    treelite_predictor (policy_rows agent_features allowable_actions) in
  Forall (fun x => PrimFloat.eqb x 0 = true) scores ->
  (GBDTPolicy.predict treelite_predictor uninitialized agent_features
     allowable_actions log).1
  = Ok (map (fun _ => nan) scores).
Proof.
  intros HA Hrange scores Hz. rewrite predict_unfold by done. simpl.
  f_equal. fold scores. rewrite np_divide_zeros.
  - by rewrite map_map.
  - apply Forall_fmap. eapply Forall_impl; [exact Hz |].
    intros x Hx. simpl. by apply float32_zero, eqb_zero_inv.
Qed.

End GBDTPolicyFacts.


(** * GBDTPolicy: training observations *)

Section Observations.

Context {S : Type}.
Variables features labels : list (list float).

Lemma append_observation_ok (row_index : nat) (row : list float)
    (rows : list (list float)) (scalar_labels : list float)
    (i : nat) (label : float) (s : S) :
  features !! row_index = Some row ->
  GBDTPolicy.append_observation features row_index (rows, scalar_labels) (i, label) s
  = (Ok (rows ++ [float_of_int (Z.of_nat i) :: row], scalar_labels ++ [label]), s).
Proof.
  intros Hrow. unfold GBDTPolicy.append_observation, bind, lift, ret, py_index.
  by rewrite Hrow.
Qed.

Lemma append_observation_loop (row_index : nat) (row : list float) (s : S) :
  features !! row_index = Some row ->
  forall (row_labels : list float) (k : nat) (rows : list (list float))
         (scalar_labels : list float),
    foldM (GBDTPolicy.append_observation features row_index)
          (enumerate_from k row_labels) (rows, scalar_labels) s
    = (Ok (rows ++ map (fun labelled => float_of_int (Z.of_nat labelled.1) :: row)
                       (enumerate_from k row_labels),
           scalar_labels ++ row_labels), s).
Proof.
  intros Hrow. induction row_labels as [| label row_labels IH];
    intros k rows scalar_labels; cbn [enumerate_from map].
  - by rewrite !app_nil_r.
  - rewrite foldM_cons, (append_observation_ok _ row) by done.
    rewrite IH. by rewrite <- !app_assoc.
Qed.


(** One pass of the outer loop, on a row that has labels. *)
Lemma append_observations_ok (row_index : nat) (row row_labels : list float)
    (rows : list (list float)) (scalar_labels : list float) (s : S) :
  features !! row_index = Some row ->
  labels !! row_index = Some row_labels ->
  GBDTPolicy.append_observations features labels (rows, scalar_labels) row_index s
  = (Ok (rows ++ map (fun labelled => float_of_int (Z.of_nat labelled.1) :: row)
                     (enumerate row_labels),
         scalar_labels ++ row_labels), s).
Proof.
  intros Hrow Hlabels.
  unfold GBDTPolicy.append_observations, bind, lift, py_index. rewrite Hlabels.
  unfold enumerate. by rewrite (append_observation_loop _ row).
Qed.

Lemma append_observations_loop (s : S) (fs ls : list (list float)) :
  length fs = length ls ->
  forall (done_f done_l : list (list float)) (rows : list (list float))
         (scalar_labels : list float),
    features = done_f ++ fs -> labels = done_l ++ ls ->
    length done_f = length done_l ->
    foldM (GBDTPolicy.append_observations features labels)
          (seq (length done_f) (length fs)) (rows, scalar_labels) s
    = (Ok (rows ++ concat (zip_with
                             (fun row row_labels =>
                                map (fun labelled =>
                                       float_of_int (Z.of_nat labelled.1) :: row)
                                    (enumerate row_labels)) fs ls),
           scalar_labels ++ concat ls), s).
Proof.
  revert ls. induction fs as [| row fs IH]; intros [| row_labels ls] Hlen;
    try discriminate; intros done_f done_l rows scalar_labels Hf Hl Hdone.
  - simpl. by rewrite !app_nil_r.
  - cbn [length seq]. rewrite foldM_cons.
    rewrite (append_observations_ok _ row row_labels).
    + specialize (IH ls ltac:(by injection Hlen) (done_f ++ [row]) (done_l ++ [row_labels])).
      rewrite length_app in IH. simpl in IH.
      replace (length done_f + 1)%nat with (Datatypes.S (length done_f)) in IH by lia.
      rewrite IH.
      * simpl. by rewrite <- !app_assoc.
      * by rewrite <- app_assoc.
      * by rewrite <- app_assoc.
      * rewrite !length_app. simpl. lia.
    + rewrite Hf. by rewrite list_lookup_middle.
    + rewrite Hl. by rewrite list_lookup_middle.
Qed.

End Observations.

Lemma lookup_enumerate_from {A} (l : list A) (k i : nat) :
  enumerate_from k l !! i = (fun x => ((k + i)%nat, x)) <$> l !! i.
Proof.
  revert k i. induction l as [| x l IH]; intros k [| i]; simpl; try done.
  - do 2 f_equal. lia.
  - rewrite IH. destruct (l !! i); simpl; [| done]. do 2 f_equal. lia.
Qed.

Lemma lookup_concat_offset {A} (ls : list (list A)) (n i : nat) (l : list A) (x : A) :
  ls !! n = Some l -> l !! i = Some x ->
  concat ls !! (sum_list (length <$> take n ls) + i)%nat = Some x.
Proof.
  revert n. induction ls as [| l0 ls IH]; intros [| n] Hn Hi; try done.
  - simpl in *. injection Hn as ->. by rewrite lookup_app_l by (by eapply lookup_lt_Some).
  - assert (Heq : (sum_list (length <$> take (Datatypes.S n) (l0 :: ls)) + i
                   = length l0 + (sum_list (length <$> take n ls) + i))%nat)
      by (simpl; rewrite <- Nat.add_assoc; reflexivity).
    rewrite Heq. cbn [concat]. rewrite lookup_app_r by lia.
    replace (length l0 + (sum_list (length <$> take n ls) + i) - length l0)%nat
      with (sum_list (length <$> take n ls) + i)%nat by lia.
    by apply IH.
Qed.

Lemma length_concat_sum {A} (ls : list (list A)) :
  length (concat ls) = sum_list (length <$> ls).
Proof. induction ls as [| l ls IH]; simpl; [done |]. by rewrite length_app, IH. Qed.

Lemma lengths_take_zip_with {A B C} (g : A -> list B -> list C)
    (fs : list A) (ls : list (list B)) (n : nat) :
  length fs = length ls ->
  (forall a l, length (g a l) = length l) ->
  length <$> take n (zip_with g fs ls) = length <$> take n ls.
Proof.
  intros Hlen Hg. revert ls n Hlen.
  induction fs as [| a fs IH]; intros [| l ls] [| n] Hlen; try done.
  simpl. rewrite Hg. f_equal. apply IH. by injection Hlen.
Qed.

Lemma np_array32_concat_rows (fs ls : list (list float)) :
  GBDTPolicy.np_array32
    (concat (zip_with
               (fun row row_labels =>
                  map (fun labelled : nat * float =>
                         float_of_int (Z.of_nat labelled.1) :: row)
                      (enumerate row_labels)) fs ls))
  = concat (zip_with observation_rows fs ls).
Proof.
  unfold GBDTPolicy.np_array32.
  revert ls. induction fs as [| row fs IH]; intros [| row_labels ls]; try done.
  cbn [zip_with concat]. rewrite map_app, IH. f_equal.
  unfold observation_rows. by rewrite map_map.
Qed.

Lemma length_observation_rows (row row_labels : list float) :
  length (observation_rows row row_labels) = length row_labels.
Proof. unfold observation_rows, enumerate. by rewrite length_map, length_enumerate_from. Qed.

Lemma length_concat_observation_rows (fs ls : list (list float)) :
  length fs = length ls ->
  length (concat (zip_with observation_rows fs ls)) = sum_list (length <$> ls).
Proof.
  intros Hlen. rewrite length_concat_sum. f_equal.
  pose proof (lengths_take_zip_with observation_rows fs ls (length fs)
                Hlen length_observation_rows) as Htake.
  rewrite !take_ge in Htake by (rewrite ?length_zip_with; lia). exact Htake.
Qed.

(** The result when every feature vector has its label vector. *)
Lemma extract_closed_form {S} (features labels : list (list float)) (s : S) :
  length features = length labels ->
  GBDTPolicy.extract_policy_observations features labels s
  = (Ok (concat (zip_with observation_rows features labels),
         map float32 (concat labels)), s).
Proof.
  intros Hlen. unfold GBDTPolicy.extract_policy_observations, bind.
  pose proof (append_observations_loop features labels s features labels Hlen
                [] [] [] [] eq_refl eq_refl eq_refl) as Hloop.
  cbn [length app] in Hloop. rewrite Hloop.
  unfold ret. by rewrite np_array32_concat_rows.
Qed.

Lemma Forall_is_float32 (l : list float) : Forall is_float32 l -> map float32 l = l.
Proof. induction 1 as [| x l Hx _ IH]; [done |]. cbn [map]. by rewrite Hx, IH. Qed.

(** C6 (amended). For N feature vectors and N label vectors, the expansion
    returns sum(A_n) rows and as many scalar labels, leaves the state
    untouched, and puts the pair (state n, action i) at position
    A_0 + ... + A_(n-1) + i: the row there is [i] followed by [features[n]],
    the label there is [labels[n][i]], each value narrowed to [float32],
    hence these values themselves when they are binary32 values.  A state
    without labels contributes nothing. *)
Theorem extract_policy_observations_rows {S} (features labels : list (list float))
    (s : S) :
  length features = length labels ->
  exists (rows : list (list float)) (scalar_labels : list float),
    GBDTPolicy.extract_policy_observations features labels s
    = (Ok (rows, scalar_labels), s) /\
    length rows = sum_list (length <$> labels) /\
    length scalar_labels = sum_list (length <$> labels) /\
    forall n i row row_labels label,
      features !! n = Some row ->
      labels !! n = Some row_labels ->
      row_labels !! i = Some label ->
      let position := (sum_list (length <$> take n labels) + i)%nat in
      rows !! position = Some (map float32 ([float_of_int (Z.of_nat i)] ++ row)) /\
      scalar_labels !! position = Some (float32 label) /\
      (Forall is_float32 ([float_of_int (Z.of_nat i)] ++ row) ->
       rows !! position = Some ([float_of_int (Z.of_nat i)] ++ row)) /\
      (is_float32 label -> scalar_labels !! position = Some label).
Proof.
  intros Hlen.
  exists (concat (zip_with observation_rows features labels)), (map float32 (concat labels)).
  split; [by apply extract_closed_form |].
  split; [by apply length_concat_observation_rows |].
  split; [rewrite length_map; apply length_concat_sum |].
  intros n i row row_labels label Hrow Hlabels Hlabel position.
  assert (Hat : concat (zip_with observation_rows features labels) !! position
                = Some (map float32 ([float_of_int (Z.of_nat i)] ++ row))).
  { subst position.
    rewrite <- (lengths_take_zip_with observation_rows features labels n Hlen
                  length_observation_rows).
    apply lookup_concat_offset with (l := observation_rows row row_labels).
    - rewrite lookup_zip_with, Hrow. simpl. by rewrite Hlabels.
    - unfold observation_rows, enumerate.
      rewrite list_lookup_fmap, lookup_enumerate_from, Hlabel. done. }
  assert (Hlab : map float32 (concat labels) !! position = Some (float32 label)).
  { subst position. rewrite list_lookup_fmap.
    by rewrite (lookup_concat_offset labels n i row_labels label). }
  split; [done |]. split; [done |]. split.
  - intros Hexact. by rewrite Hat, Forall_is_float32.
  - intros Hexact. by rewrite Hlab, Hexact.
Qed.

(** * Loops that keep an invariant *)

Lemma for_each_preserves {S A} (I : S -> Prop) (body : A -> M S unit) (l : list A) :
  (forall x s, I s -> exists s', body x s = (Ok tt, s') /\ I s') ->
  forall s, I s -> exists s', for_each l body s = (Ok tt, s') /\ I s'.
Proof.
  intros Hbody. unfold for_each.
  induction l as [| x l IH]; intros s Hs.
  - exists s. done.
  - destruct (Hbody x s Hs) as (s' & Hx & Hs').
    destruct (IH s' Hs') as (s'' & Hl & Hs'').
    exists s''. by rewrite foldM_cons, Hx.
Qed.

(** * NaivePolicy: training *)

Lemma accumulate_tables (features : list Z) (i : nat) (label : float)
    (mass weight : gmap (list Z) float) :
  NaivePolicy.accumulate features i label
    {| NaivePolicy.state_action_mass := Some mass;
       NaivePolicy.state_action_weight := Some weight |}
  = (Ok tt,
     {| NaivePolicy.state_action_mass :=
          Some (<[features ++ [Z.of_nat i] :=
                    PrimFloat.add (default 0%float (mass !! (features ++ [Z.of_nat i]))) label]>
                  mass);
        NaivePolicy.state_action_weight :=
          Some (<[features ++ [Z.of_nat i] :=
                    PrimFloat.add (default 0%float (weight !! (features ++ [Z.of_nat i]))) 1]>
                  weight) |}).
Proof. reflexivity. Qed.

Lemma accumulate_same_keys (features : list Z) (i : nat) (label : float)
    (self : NaivePolicy.state) :
  same_keys self ->
  exists self', NaivePolicy.accumulate features i label self = (Ok tt, self')
                /\ same_keys self'.
Proof.
  intros (mass & weight & Hm & Hw & Hkeys). destruct self as [? ?].
  simpl in Hm, Hw. subst. eexists. split; [apply accumulate_tables |].
  eexists _, _. split; [done |]. split; [done |].
  intros key. destruct (decide (features ++ [Z.of_nat i] = key)) as [<- | Hne].
  - rewrite !lookup_insert_eq. split; eauto.
  - rewrite !lookup_insert_ne by done. apply Hkeys.
Qed.

Lemma accumulate_sample_same_keys (s : NaivePolicy.sample) (self : NaivePolicy.state) :
  same_keys self ->
  exists self', NaivePolicy.accumulate_sample s self = (Ok tt, self') /\ same_keys self'.
Proof.
  intros Hself. destruct s as [[sample_type features] labels].
  unfold NaivePolicy.accumulate_sample.
  destruct (String.eqb sample_type "value").
  - exists self. done.
  - apply for_each_preserves; [| done].
    intros [i label] s Hs. by apply accumulate_same_keys.
Qed.

Lemma train_accumulate_same_keys (samples : list NaivePolicy.sample)
    (self : NaivePolicy.state) :
  exists self', NaivePolicy.train_accumulate samples self = (Ok tt, self')
                /\ same_keys self'.
Proof.
  unfold NaivePolicy.train_accumulate, bind,
    NaivePolicy.set_state_action_mass, NaivePolicy.set_state_action_weight, modify.
  simpl. apply for_each_preserves.
  - intros s st Hst. by apply accumulate_sample_same_keys.
  - eexists _, _. split; [done |]. split; [done |]. intros key.
    by rewrite !lookup_empty.
Qed.

Lemma delete_key_tables (k : list Z) (mass weight : gmap (list Z) float) :
  is_Some (mass !! k) -> is_Some (weight !! k) ->
  NaivePolicy.delete_key k
    {| NaivePolicy.state_action_mass := Some mass;
       NaivePolicy.state_action_weight := Some weight |}
  = (Ok tt,
     {| NaivePolicy.state_action_mass := Some (delete k mass);
        NaivePolicy.state_action_weight := Some (delete k weight) |}).
Proof.
  intros [x Hx] [y Hy].
  unfold NaivePolicy.delete_key, bind, gets, lift, py_delitem,
    NaivePolicy.set_state_action_mass, NaivePolicy.set_state_action_weight, modify.
  simpl. rewrite Hx. simpl. by rewrite Hy.
Qed.

Lemma for_each_delete_key (ks : list (list Z)) :
  NoDup ks ->
  forall mass weight : gmap (list Z) float,
    (forall k, k ∈ ks -> is_Some (mass !! k) /\ is_Some (weight !! k)) ->
    exists mass' weight' : gmap (list Z) float,
      for_each ks NaivePolicy.delete_key
        {| NaivePolicy.state_action_mass := Some mass;
           NaivePolicy.state_action_weight := Some weight |}
      = (Ok tt,
         {| NaivePolicy.state_action_mass := Some mass';
            NaivePolicy.state_action_weight := Some weight' |}) /\
      (forall k, mass' !! k = if decide (k ∈ ks) then None else mass !! k) /\
      (forall k, weight' !! k = if decide (k ∈ ks) then None else weight !! k).
Proof.
  unfold for_each.
  induction 1 as [| k0 ks Hk0 Hnodup IH]; intros mass weight Hin.
  - exists mass, weight. split; [done |].
    split; intros k; (destruct (decide (k ∈ [])) as [Hk | _]; [by apply elem_of_nil in Hk | done]).
  - destruct (Hin k0 ltac:(by left)) as [Hm Hw].
    destruct (IH (delete k0 mass) (delete k0 weight)) as (mass' & weight' & Hrun & Hm' & Hw').
    { intros k Hk. assert (k0 <> k) by (intros ->; done).
      rewrite !lookup_delete_ne by done. apply Hin. by right. }
    exists mass', weight'. split.
    { by rewrite foldM_cons, delete_key_tables. }
    split; intros k; [rewrite Hm' | rewrite Hw'];
      (destruct (decide (k ∈ ks)) as [Hk | Hk];
       [ rewrite decide_True by (by right); done
       | destruct (decide (k = k0)) as [-> | Hne];
         [ rewrite decide_True by (by left); apply lookup_delete_eq
         | rewrite decide_False by (by intros [?|?]%elem_of_cons);
           by apply lookup_delete_ne ] ]).
Qed.

Lemma train_prune_tables (mass weight : gmap (list Z) float) :
  (forall key, is_Some (mass !! key) <-> is_Some (weight !! key)) ->
  exists mass' weight' : gmap (list Z) float,
    NaivePolicy.train_prune
      {| NaivePolicy.state_action_mass := Some mass;
         NaivePolicy.state_action_weight := Some weight |}
    = (Ok tt,
       {| NaivePolicy.state_action_mass := Some mass';
          NaivePolicy.state_action_weight := Some weight' |}) /\
    forall key,
      match weight !! key with
      | Some x =>
          if PrimFloat.leb x 5 then mass' !! key = None /\ weight' !! key = None
          else mass' !! key = mass !! key /\ weight' !! key = Some x
      | None => mass' !! key = None /\ weight' !! key = None
      end.
Proof.
  intros Hkeys.
  set (to_delete := (filter (fun kv : list Z * float => PrimFloat.leb kv.2 5 = true)
                            (map_to_list weight)).*1).
  assert (Hin : forall k, k ∈ to_delete <->
                          exists x, weight !! k = Some x /\ PrimFloat.leb x 5 = true).
  { intros k. unfold to_delete. rewrite list_elem_of_fmap. split.
    - intros ([k' x] & -> & [Hx Hkx%elem_of_map_to_list]%list_elem_of_filter). eauto.
    - intros (x & Hkx & Hx). exists (k, x). split; [done |].
      apply list_elem_of_filter. split; [done | by apply elem_of_map_to_list]. }
  destruct (for_each_delete_key to_delete) with (mass := mass) (weight := weight)
    as (mass' & weight' & Hrun & Hm' & Hw').
  { unfold to_delete. eapply sublist_NoDup; [apply (NoDup_fst_map_to_list weight) |].
    apply fmap_sublist, sublist_filter. }
  { intros k (x & Hkx & _)%Hin. split; [apply Hkeys |]; eauto. }
  exists mass', weight'. split.
  { unfold NaivePolicy.train_prune, bind, gets, lift, py_items. simpl. exact Hrun. }
  intros key. rewrite Hm', Hw'.
  destruct (weight !! key) as [x |] eqn:Hx.
  - destruct (PrimFloat.leb x 5) eqn:Hle.
    + rewrite !decide_True by (apply Hin; eauto). done.
    + rewrite !decide_False; [done | |];
        intros (y & Hy & Hley)%Hin; congruence.
  - assert (Hmk : mass !! key = None).
    { apply eq_None_not_Some. rewrite Hkeys, Hx. by intros [? ?]. }
    rewrite Hmk. by destruct (decide (key ∈ to_delete)).
Qed.

(** What [train] leaves behind, in terms of the tables as they stood after
    the accumulation. *)
Lemma train_tables (samples : list NaivePolicy.sample) (self : NaivePolicy.state) :
  exists mass weight mass' weight' : gmap (list Z) float,
    NaivePolicy.train_accumulate samples self
    = (Ok tt, {| NaivePolicy.state_action_mass := Some mass;
                 NaivePolicy.state_action_weight := Some weight |}) /\
    NaivePolicy.train samples self
    = (Ok tt, {| NaivePolicy.state_action_mass := Some mass';
                 NaivePolicy.state_action_weight := Some weight' |}) /\
    (forall key, is_Some (mass !! key) <-> is_Some (weight !! key)) /\
    forall key,
      match weight !! key with
      | Some x =>
          if PrimFloat.leb x 5 then mass' !! key = None /\ weight' !! key = None
          else mass' !! key = mass !! key /\ weight' !! key = Some x
      | None => mass' !! key = None /\ weight' !! key = None
      end.
Proof.
  destruct (train_accumulate_same_keys samples self)
    as ([mass_o weight_o] & Hacc & mass & weight & Hm & Hw & Hkeys).
  simpl in Hm, Hw. subst mass_o weight_o.
  destruct (train_prune_tables mass weight Hkeys) as (mass' & weight' & Hprune & Hspec).
  exists mass, weight, mass', weight'.
  split; [done |]. split; [| done].
  unfold NaivePolicy.train, bind. by rewrite Hacc.
Qed.

(** A trained estimator has both tables, with the same keys, and no weight
    that compares equal to zero. *)
Lemma train_nonzero_weights (samples : list NaivePolicy.sample)
    (self self' : NaivePolicy.state) :
  NaivePolicy.train samples self = (Ok tt, self') ->
  exists mass weight : gmap (list Z) float,
    self' = {| NaivePolicy.state_action_mass := Some mass;
               NaivePolicy.state_action_weight := Some weight |} /\
    (forall key, is_Some (mass !! key) <-> is_Some (weight !! key)) /\
    (forall key x, weight !! key = Some x -> PrimFloat.eqb x 0 = false).
Proof.
  intros Htrain.
  destruct (train_tables samples self)
    as (mass & weight & mass' & weight' & _ & Htrain' & Hkeys & Hspec).
  rewrite Htrain' in Htrain. injection Htrain as <-.
  exists mass', weight'. split; [done |]. split.
  - intros key. specialize (Hspec key). specialize (Hkeys key).
    destruct (weight !! key) as [x |] eqn:Hx.
    + destruct (PrimFloat.leb x 5); destruct Hspec as [-> ->].
      * split; intros [? ?]; done.
      * rewrite Hkeys. split; eauto.
    + destruct Hspec as [-> ->]. split; intros [? ?]; done.
  - intros key x Hx. specialize (Hspec key).
    destruct (weight !! key) as [y |] eqn:Hy.
    + destruct (PrimFloat.leb y 5) eqn:Hle; destruct Hspec as [_ Hw]; [congruence |].
      assert (x = y) by congruence. subst y. by apply leb_5_false_nonzero.
    + destruct Hspec as [_ Hw]. congruence.
Qed.

(** * NaivePolicy: weights count observations *)

Lemma accumulate_labels_weight (features : list Z) (labels : list float) :
  forall (n : nat) (mass weight : gmap (list Z) float),
    exists mass' weight' : gmap (list Z) float,
      for_each (enumerate_from n labels)
               (fun labelled => NaivePolicy.accumulate features labelled.1 labelled.2)
        {| NaivePolicy.state_action_mass := Some mass;
           NaivePolicy.state_action_weight := Some weight |}
      = (Ok tt, {| NaivePolicy.state_action_mass := Some mass';
                   NaivePolicy.state_action_weight := Some weight' |}) /\
      forall key,
        weight' !! key
        = Nat.iter (length (filter (fun k => k = key)
                              (map (fun labelled : nat * float =>
                                      features ++ [Z.of_nat labelled.1])
                                   (enumerate_from n labels))))
                   bump (weight !! key).
Proof.
  unfold for_each.
  induction labels as [| label labels IH]; intros n mass weight.
  - exists mass, weight. done.
  - cbn [enumerate_from]. rewrite foldM_cons. cbn [fst snd].
    rewrite accumulate_tables.
    edestruct IH as (mass' & weight' & Hrun & Hw). 
    exists mass', weight'. split; [exact Hrun |].
    intros key. rewrite Hw. cbn [map fst]. rewrite filter_cons.
    destruct (decide (features ++ [Z.of_nat n] = key)) as [<- | Hne].
    + cbn [length]. rewrite Nat.iter_succ_r, lookup_insert_eq. done.
    + by rewrite lookup_insert_ne.
Qed.

Lemma accumulate_sample_weight (s : NaivePolicy.sample)
    (mass weight : gmap (list Z) float) :
  exists mass' weight' : gmap (list Z) float,
    NaivePolicy.accumulate_sample s
      {| NaivePolicy.state_action_mass := Some mass;
         NaivePolicy.state_action_weight := Some weight |}
    = (Ok tt, {| NaivePolicy.state_action_mass := Some mass';
                 NaivePolicy.state_action_weight := Some weight' |}) /\
    forall key,
      weight' !! key
      = Nat.iter (length (filter (fun k => k = key) (sample_keys s))) bump (weight !! key).
Proof.
  destruct s as [[sample_type features] labels].
  unfold NaivePolicy.accumulate_sample, sample_keys.
  destruct (String.eqb sample_type "value").
  - exists mass, weight. done.
  - apply accumulate_labels_weight.
Qed.

Lemma accumulate_samples_weight (samples : list NaivePolicy.sample) :
  forall mass weight : gmap (list Z) float,
    exists mass' weight' : gmap (list Z) float,
      for_each samples NaivePolicy.accumulate_sample
        {| NaivePolicy.state_action_mass := Some mass;
           NaivePolicy.state_action_weight := Some weight |}
      = (Ok tt, {| NaivePolicy.state_action_mass := Some mass';
                   NaivePolicy.state_action_weight := Some weight' |}) /\
      forall key,
        weight' !! key
        = Nat.iter (length (filter (fun k => k = key) (flat_map sample_keys samples)))
                   bump (weight !! key).
Proof.
  unfold for_each.
  induction samples as [| s samples IH]; intros mass weight.
  - exists mass, weight. done.
  - destruct (accumulate_sample_weight s mass weight) as (mass1 & weight1 & Hs & H1).
    destruct (IH mass1 weight1) as (mass' & weight' & Hrun & Hw).
    exists mass', weight'. split.
    + by rewrite foldM_cons, Hs.
    + intros key. rewrite Hw, H1. cbn [flat_map].
      rewrite filter_app, length_app, Nat.add_comm. symmetry. apply Nat.iter_add.
Qed.

(** The accumulated weight of a key is 0.0 + 1.0 + ... + 1.0, once per
    occurrence; a key that never occurs has no entry. *)
Lemma train_accumulate_weight (samples : list NaivePolicy.sample)
    (self : NaivePolicy.state) (mass weight : gmap (list Z) float) :
  NaivePolicy.train_accumulate samples self
  = (Ok tt, {| NaivePolicy.state_action_mass := Some mass;
               NaivePolicy.state_action_weight := Some weight |}) ->
  forall key, weight !! key = Nat.iter (occurrences key samples) bump None.
Proof.
  intros Hacc key.
  destruct (accumulate_samples_weight samples ∅ ∅) as (mass' & weight' & Hrun & Hw).
  unfold NaivePolicy.train_accumulate, bind,
    NaivePolicy.set_state_action_mass, NaivePolicy.set_state_action_weight, modify in Hacc.
  simpl in Hacc. rewrite Hrun in Hacc. injection Hacc as <- <-.
  rewrite Hw, lookup_empty. done.
Qed.

Lemma bump_few (n : nat) :
  (n <= 5)%nat ->
  match Nat.iter n bump None with
  | Some x => PrimFloat.leb x 5 = true
  | None => True
  end.
Proof.
  intros Hn. do 6 (destruct n as [| n]; [vm_compute; done |]). lia.
Qed.

Lemma bump_six : Nat.iter 6 bump None = Some 6%float.
Proof. reflexivity. Qed.

(** C8 (amended to the policy estimator). [NaivePolicy.train] always
    completes.  The weight accumulated for a key is 0.0 + 1.0 + ... + 1.0,
    once per occurrence of the key.  A key whose accumulated weight is at
    most 5 (so every key that occurs five times or fewer) is in neither
    table afterwards; a key whose accumulated weight is not at most 5, in
    particular one of weight 6 or more (so a key that occurs exactly six
    times), is in both with the values it had; and afterwards a key is in
    the mass table exactly when it is in the weight table. *)
Theorem NaivePolicy_train_prunes_both_tables (samples : list NaivePolicy.sample)
    (self : NaivePolicy.state) :
  exists mass weight mass' weight' : gmap (list Z) float,
    NaivePolicy.train_accumulate samples self
    = (Ok tt, {| NaivePolicy.state_action_mass := Some mass;
                 NaivePolicy.state_action_weight := Some weight |}) /\
    NaivePolicy.train samples self
    = (Ok tt, {| NaivePolicy.state_action_mass := Some mass';
                 NaivePolicy.state_action_weight := Some weight' |}) /\
    (forall key, weight !! key = Nat.iter (occurrences key samples) bump None) /\
    (forall key x, weight !! key = Some x -> PrimFloat.leb x 5 = true ->
                   mass' !! key = None /\ weight' !! key = None) /\
    (forall key x, weight !! key = Some x ->
                   PrimFloat.leb x 5 = false \/ PrimFloat.leb 6 x = true ->
                   is_Some (mass' !! key) /\ mass' !! key = mass !! key /\
                   weight' !! key = Some x) /\
    (forall key, (occurrences key samples <= 5)%nat ->
                 mass' !! key = None /\ weight' !! key = None) /\
    (forall key, occurrences key samples = 6%nat ->
                 is_Some (mass' !! key) /\ weight' !! key = Some 6%float) /\
    (forall key, is_Some (mass' !! key) <-> is_Some (weight' !! key)).
Proof.
  destruct (train_tables samples self)
    as (mass & weight & mass' & weight' & Hacc & Htrain & Hkeys & Hspec).
  pose proof (train_accumulate_weight samples self mass weight Hacc) as Hcount.
  exists mass, weight, mass', weight'.
  split; [done |]. split; [done |]. split; [done |].
  split; [| split; [| split; [| split]]].
  - intros key x Hx Hle. specialize (Hspec key). by rewrite Hx, Hle in Hspec.
  - intros key x Hx Hgt.
    assert (Hle : PrimFloat.leb x 5 = false).
    { destruct Hgt as [? | ?]; [done | by apply leb_6_true_leb_5_false]. }
    specialize (Hspec key). rewrite Hx, Hle in Hspec. destruct Hspec as [-> ->].
    split; [| done]. apply Hkeys. eauto.
  - intros key Hfew. specialize (Hspec key).
    pose proof (bump_few _ Hfew) as Hle. rewrite <- Hcount in Hle.
    destruct (weight !! key) as [x |]; [by rewrite Hle in Hspec | done].
  - intros key Hsix. specialize (Hspec key).
    rewrite Hcount, Hsix, bump_six in Hspec.
    change (PrimFloat.leb 6 5) with false in Hspec. destruct Hspec as [Hm Hw].
    split; [| done]. rewrite Hm. apply Hkeys. rewrite Hcount, Hsix, bump_six. eauto.
  - destruct (train_nonzero_weights samples self _ Htrain)
      as (mass2 & weight2 & Heq & Hkeys' & _).
    injection Heq as <- <-. exact Hkeys'.
Qed.

(** * NaivePolicy: prediction *)

Lemma py_truediv_one_len {A} (l : list A) :
  l <> [] -> len l < 2 ^ 63 ->
  py_truediv 1 (float_of_int (len l)) = Ok (PrimFloat.div 1 (float_of_int (len l))).
Proof.
  intros Hne Hlt. unfold py_truediv. rewrite float_of_int_nonzero; [done |].
  split; [| done]. unfold len. destruct l; [done | simpl; lia].
Qed.

Lemma uniform_ok (allowable_actions : list Z) (self : NaivePolicy.state) :
  allowable_actions <> [] -> len allowable_actions < 2 ^ 63 ->
  NaivePolicy.uniform allowable_actions self
  = (Ok (repeat (PrimFloat.div 1 (float_of_int (len allowable_actions)))
                (length allowable_actions)), self).
Proof.
  intros Hne Hlt. unfold NaivePolicy.uniform, bind, lift, ret.
  by rewrite py_truediv_one_len.
Qed.

Section Predict.

Variables mass weight : gmap (list Z) float.
Variable features : list Z.

Hypothesis same : forall key, is_Some (mass !! key) <-> is_Some (weight !! key).
Hypothesis nonzero : forall key x, weight !! key = Some x -> PrimFloat.eqb x 0 = false.

Local Abbreviation self :=
  {| NaivePolicy.state_action_mass := Some mass;
     NaivePolicy.state_action_weight := Some weight |}.

Lemma predict_action_hit (move_probabilities : list float) (i : nat) (action : Z)
    (m w : float) :
  mass !! (features ++ [Z.of_nat i]) = Some m ->
  weight !! (features ++ [Z.of_nat i]) = Some w ->
  NaivePolicy.predict_action features move_probabilities (i, action) self
  = (Ok (move_probabilities ++ [PrimFloat.div m w]), self).
Proof.
  intros Hm Hw.
  unfold NaivePolicy.predict_action, bind, gets, lift, ret, py_getitem, py_truediv.
  simpl. rewrite Hm, Hw. simpl. by rewrite (nonzero _ _ Hw).
Qed.

Lemma predict_action_miss (move_probabilities : list float) (i : nat) (action : Z) :
  mass !! (features ++ [Z.of_nat i]) = None ->
  NaivePolicy.predict_action features move_probabilities (i, action) self
  = (Raise KeyError, self).
Proof.
  intros Hm.
  unfold NaivePolicy.predict_action, bind, gets, lift, py_getitem.
  simpl. by rewrite Hm.
Qed.

Lemma predict_loop_hits (l : list Z) :
  forall (n : nat) (move_probabilities : list float),
    (forall j, (j < length l)%nat -> is_Some (mass !! (features ++ [Z.of_nat (n + j)]))) ->
    exists ratios : list float,
      foldM (NaivePolicy.predict_action features) (enumerate_from n l)
            move_probabilities self
      = (Ok (move_probabilities ++ ratios), self) /\
      length ratios = length l /\
      forall j m w,
        mass !! (features ++ [Z.of_nat (n + j)]) = Some m ->
        weight !! (features ++ [Z.of_nat (n + j)]) = Some w ->
        (j < length l)%nat ->
        ratios !! j = Some (PrimFloat.div m w).
Proof.
  induction l as [| action l IH]; intros n acc Hall.
  - exists []. simpl. rewrite app_nil_r. split; [done |]. split; [done |]. intros; lia.
  - destruct (Hall 0%nat ltac:(simpl; lia)) as [m Hm].
    rewrite Nat.add_0_r in Hm.
    destruct (proj1 (same _) (mk_is_Some _ _ Hm)) as [w Hw].
    destruct (IH (S n) (acc ++ [PrimFloat.div m w])) as (ratios & Hrun & Hlen & Hratios).
    { intros j Hj. replace (S n + j)%nat with (n + S j)%nat by lia.
      apply Hall. simpl. lia. }
    exists (PrimFloat.div m w :: ratios). split; [| split].
    + cbn [enumerate_from]. rewrite foldM_cons, (predict_action_hit _ _ _ m w) by done.
      rewrite Hrun. by rewrite <- app_assoc.
    + simpl. by rewrite Hlen.
    + intros [| j] m' w' Hm' Hw' Hj.
      * rewrite Nat.add_0_r in Hm', Hw'. simpl. congruence.
      * simpl. apply Hratios; [| | simpl in Hj; lia].
        -- by replace (S n + j)%nat with (n + S j)%nat by lia.
        -- by replace (S n + j)%nat with (n + S j)%nat by lia.
Qed.

Lemma predict_loop_miss (l : list Z) :
  forall (n : nat) (move_probabilities : list float) (j : nat),
    (j < length l)%nat ->
    mass !! (features ++ [Z.of_nat (n + j)]) = None ->
    foldM (NaivePolicy.predict_action features) (enumerate_from n l)
          move_probabilities self
    = (Raise KeyError, self).
Proof.
  induction l as [| action l IH]; intros n acc j Hj Hmiss; [simpl in Hj; lia |].
  cbn [enumerate_from]. rewrite foldM_cons.
  destruct (mass !! (features ++ [Z.of_nat n])) as [m |] eqn:Hm.
  - destruct (proj1 (same _) (mk_is_Some _ _ Hm)) as [w Hw].
    rewrite (predict_action_hit _ _ _ m w) by done.
    destruct j as [| j]; [rewrite Nat.add_0_r in Hmiss; congruence |].
    apply (IH (S n) _ j); [simpl in Hj; lia |].
    by replace (S n + j)%nat with (n + S j)%nat by lia.
  - by rewrite predict_action_miss.
Qed.

Lemma predict_tables_miss (allowable_actions : list Z) (i : nat) :
  allowable_actions <> [] -> len allowable_actions < 2 ^ 63 ->
  (i < length allowable_actions)%nat ->
  mass !! (features ++ [Z.of_nat i]) = None ->
  NaivePolicy.predict features allowable_actions self
  = (Ok (repeat (PrimFloat.div 1 (float_of_int (len allowable_actions)))
                (length allowable_actions)), self).
Proof.
  intros Hne Hlt Hi Hm.
  unfold NaivePolicy.predict, try_except, enumerate.
  rewrite (predict_loop_miss _ 0%nat [] i Hi Hm).
  by apply uniform_ok.
Qed.

Lemma predict_tables_hit (allowable_actions : list Z) :
  (forall i, (i < length allowable_actions)%nat ->
             is_Some (mass !! (features ++ [Z.of_nat i]))) ->
  exists move_probabilities : list float,
    NaivePolicy.predict features allowable_actions self = (Ok move_probabilities, self) /\
    length move_probabilities = length allowable_actions /\
    forall i m w,
      mass !! (features ++ [Z.of_nat i]) = Some m ->
      weight !! (features ++ [Z.of_nat i]) = Some w ->
      (i < length allowable_actions)%nat ->
      move_probabilities !! i = Some (PrimFloat.div m w).
Proof.
  intros Hall.
  destruct (predict_loop_hits allowable_actions 0%nat []) as (ratios & Hrun & Hlen & Hratios).
  { intros j Hj. by apply Hall. }
  exists ratios. split; [| split; [done |]].
  - unfold NaivePolicy.predict, try_except, enumerate. by rewrite Hrun.
  - intros i m w Hm Hw Hi. by apply Hratios.
Qed.

End Predict.

(** C4. On a trained tabular policy estimator, for a non-empty
    [allowable_actions] of length A: if the key [(features..., i)] is missing
    for some position i, [predict] returns A copies of [1.0 / A]; if every
    key is present it returns, position by position, the stored mass divided
    by the stored weight, with no renormalisation.  The estimator is left
    as it was. *)
Theorem NaivePolicy_predict_all_or_nothing (samples : list NaivePolicy.sample)
    (untrained self : NaivePolicy.state) (features allowable_actions : list Z) :
  NaivePolicy.train samples untrained = (Ok tt, self) ->
  allowable_actions <> [] ->
  len allowable_actions < 2 ^ 63 ->
  exists mass weight : gmap (list Z) float,
    NaivePolicy.state_action_mass self = Some mass /\
    NaivePolicy.state_action_weight self = Some weight /\
    ((exists i, (i < length allowable_actions)%nat /\
                (mass !! (features ++ [Z.of_nat i]) = None \/
                 weight !! (features ++ [Z.of_nat i]) = None)) ->
     NaivePolicy.predict features allowable_actions self
     = (Ok (repeat (PrimFloat.div 1 (float_of_int (len allowable_actions)))
                   (length allowable_actions)), self)) /\
    ((forall i, (i < length allowable_actions)%nat ->
                is_Some (mass !! (features ++ [Z.of_nat i])) /\
                is_Some (weight !! (features ++ [Z.of_nat i]))) ->
     exists move_probabilities : list float,
       NaivePolicy.predict features allowable_actions self
       = (Ok move_probabilities, self) /\
       length move_probabilities = length allowable_actions /\
       forall i, (i < length allowable_actions)%nat ->
         exists m w,
           mass !! (features ++ [Z.of_nat i]) = Some m /\
           weight !! (features ++ [Z.of_nat i]) = Some w /\
           move_probabilities !! i = Some (PrimFloat.div m w)).
Proof.
  intros Htrain Hne Hlt.
  destruct (train_nonzero_weights _ _ _ Htrain) as (mass & weight & -> & Hsame & Hnz).
  exists mass, weight. split; [done |]. split; [done |]. split.
  - intros (i & Hi & Hmiss).
    assert (Hm : mass !! (features ++ [Z.of_nat i]) = None).
    { destruct Hmiss as [? | Hw]; [done |].
      apply eq_None_not_Some. rewrite Hsame, Hw. by intros [? ?]. }
    by apply (predict_tables_miss mass weight features Hsame Hnz allowable_actions i).
  - intros Hall.
    destruct (predict_tables_hit mass weight features Hsame Hnz allowable_actions)
      as (probs & Hrun & Hlen & Hratios).
    { intros i Hi. by apply Hall. }
    exists probs. split; [done |]. split; [done |].
    intros i Hi. destruct (Hall i Hi) as [[m Hm] [w Hw]].
    exists m, w. split; [done |]. split; [done |]. by apply Hratios.
Qed.

Lemma keys_present_or_missing (mass : gmap (list Z) float) (features : list Z) (n : nat) :
  (forall i, (i < n)%nat -> is_Some (mass !! (features ++ [Z.of_nat i]))) \/
  (exists i, (i < n)%nat /\ mass !! (features ++ [Z.of_nat i]) = None).
Proof.
  induction n as [| n [IH | (i & Hi & Hmiss)]].
  - left. intros; lia.
  - destruct (mass !! (features ++ [Z.of_nat n])) as [m |] eqn:Hm.
    + left. intros i Hi. destruct (decide (i = n)) as [-> | Hne]; [eauto |].
      apply IH. lia.
    + right. exists n. split; [lia | done].
  - right. exists i. split; [lia | done].
Qed.

Section PolicyEstimators.

Variable treelite_predictor : list (list float) -> list float.
Variable uninitialized : nat -> nat -> float.

(** The backend returns one score per row. *)
Hypothesis one_score_per_row :
  forall batch, length (treelite_predictor batch) = length batch.

(** C1 (amended). For a non-empty [allowable_actions] of length A, every
    policy estimator returns a list of exactly A entries: [UniformPolicy] A
    copies of [1.0 / A]; [GBDTPolicy], over a backend that returns one score
    per row, [[1.0]] when A is 1 and otherwise, for actions that [float]
    accepts, each score divided by the sum of the scores; a trained
    [NaivePolicy] either A copies of [1.0 / A] or, position by position, the
    stored mass divided by the stored weight, which is not renormalised. *)
Theorem policy_predict_length (agent_features : list float) (features : list Z)
    (allowable_actions : list Z) (log : list GBDTPolicy.call)
    (samples : list NaivePolicy.sample) (untrained self : NaivePolicy.state) :
  NaivePolicy.train samples untrained = (Ok tt, self) ->
  allowable_actions <> [] ->
  len allowable_actions < 2 ^ 63 ->
  (length allowable_actions <> 1%nat ->
   Forall (fun action => in_float_range action = true) allowable_actions) ->
  UniformPolicy.predict agent_features allowable_actions
  = Ok (UniformPolicy.Probabilities
          (repeat (PrimFloat.div 1 (float_of_int (len allowable_actions)))
                  (length allowable_actions))) /\
  (exists (move_probabilities : list float) (log' : list GBDTPolicy.call),
     GBDTPolicy.predict treelite_predictor uninitialized agent_features
       allowable_actions log = (Ok move_probabilities, log') /\
     length move_probabilities = length allowable_actions /\
     (length allowable_actions = 1%nat -> move_probabilities = [1%float]) /\
     (length allowable_actions <> 1%nat ->
      let scores :=
        map float32
            (treelite_predictor (policy_rows agent_features allowable_actions)) in
      move_probabilities = GBDTPolicy.np_divide scores (GBDTPolicy.np_sum scores))) /\
  (exists (mass weight : gmap (list Z) float) (move_probabilities : list float),
     NaivePolicy.state_action_mass self = Some mass /\
     NaivePolicy.state_action_weight self = Some weight /\
     NaivePolicy.predict features allowable_actions self = (Ok move_probabilities, self) /\
     length move_probabilities = length allowable_actions /\
     (move_probabilities
      = repeat (PrimFloat.div 1 (float_of_int (len allowable_actions)))
               (length allowable_actions) \/
      forall i, (i < length allowable_actions)%nat ->
        exists m w,
          mass !! (features ++ [Z.of_nat i]) = Some m /\
          weight !! (features ++ [Z.of_nat i]) = Some w /\
          move_probabilities !! i = Some (PrimFloat.div m w))).
Proof.
  intros Htrain Hne Hlt Hrange. split; [| split].
  - unfold UniformPolicy.predict. destruct allowable_actions as [| a l] eqn:Hl; [done |].
    rewrite <- Hl in *. by rewrite py_truediv_one_len.
  - destruct (decide (length allowable_actions = 1%nat)) as [H1 | H1].
    + exists [1%float], log. unfold GBDTPolicy.predict, len. rewrite H1.
      split; [done |]. split; [done |]. split; [done | intros; done].
    + assert (HA : (1 < length allowable_actions)%nat).
      { destruct allowable_actions as [| a [| b l]]; simpl in *; [done | done | lia]. }
      eexists _, _. rewrite predict_unfold by auto.
      split; [reflexivity |]. split; [| split; [intros; done | intros _; reflexivity]].
      unfold GBDTPolicy.np_divide.
      by rewrite !length_map, one_score_per_row, length_policy_rows.
  - destruct (train_nonzero_weights _ _ _ Htrain) as (mass & weight & -> & Hsame & Hnz).
    exists mass, weight.
    destruct (keys_present_or_missing mass features (length allowable_actions))
      as [Hall | (i & Hi & Hnone)].
    + destruct (predict_tables_hit mass weight features Hsame Hnz allowable_actions Hall)
        as (probs & Hrun & Hlen & Hratios).
      exists probs. split; [done |]. split; [done |]. split; [done |]. split; [done |].
      right. intros i Hi. destruct (Hall i Hi) as [m Hm].
      destruct (proj1 (Hsame _) (mk_is_Some _ _ Hm)) as [w Hw].
      exists m, w. split; [done |]. split; [done |]. by apply Hratios.
    + eexists. split; [done |]. split; [done |].
      split; [by apply (predict_tables_miss mass weight features Hsame Hnz _ i) |].
      split; [by rewrite repeat_length | by left].
Qed.

End PolicyEstimators.

(** * Saving and loading the tables *)

Section RoundTrip.

Context {V : Type}.
Variable enc : V -> json_number.
Variable conv : json_number -> result V.
Hypothesis conv_enc : forall v, conv (enc v) = Ok v.

Lemma load_items_dumped (items : list (list Z * V)) (acc : gmap (list Z) V) :
  load_items conv (dump_items enc items) acc
  = Ok (fold_left (fun m kv => <[kv.1 := kv.2]> m) items acc).
Proof.
  revert acc. induction items as [| [k v] items IH]; intros acc; simpl; [done |].
  by rewrite conv_enc, IH.
Qed.

Lemma dict_of_items_map_to_list (m : gmap (list Z) V) :
  dict_of_items (map_to_list m) = m.
Proof.
  unfold dict_of_items. rewrite <- fold_left_rev_right.
  transitivity (list_to_map (rev (map_to_list m)) : gmap (list Z) V).
  - unfold list_to_map. generalize (rev (map_to_list m)).
    induction l as [| [k v] l IH]; simpl; [done | by rewrite IH].
  - rewrite <- (list_to_map_proper (map_to_list m) (rev (map_to_list m))).
    + apply list_to_map_to_list.
    + apply NoDup_fst_map_to_list.
    + apply Permutation_rev.
Qed.

Lemma load_dict_dumped (m : gmap (list Z) V) :
  load_dict conv (dump_items enc (map_to_list m)) = Ok m.
Proof.
  unfold load_dict. rewrite load_items_dumped.
  f_equal. apply dict_of_items_map_to_list.
Qed.

End RoundTrip.

Lemma json_int_JInt (z : Z) : json_int (JInt z) = Ok z.
Proof. reflexivity. Qed.

Lemma json_float_JFloat (f : float) : json_float (JFloat f) = Ok f.
Proof. reflexivity. Qed.

(** C9. Saving a tabular estimator and loading the document back, into any
    estimator object, gives the two tables exactly as they were: the same
    keys, element by element and in order, with the same values, integers
    for the value estimator and floats for the policy estimator. *)
Theorem tabular_save_load_round_trip
    (visits wins : gmap (list Z) Z) (mass weight : gmap (list Z) float)
    (other_value : NaiveValue.state) (other_policy : NaivePolicy.state) :
  (exists document : json,
     NaiveValue.save {| NaiveValue.state_visits := Some visits;
                        NaiveValue.state_wins := Some wins |}
     = (Ok document, {| NaiveValue.state_visits := Some visits;
                        NaiveValue.state_wins := Some wins |}) /\
     NaiveValue.load document other_value
     = (Ok tt, {| NaiveValue.state_visits := Some visits;
                  NaiveValue.state_wins := Some wins |})) /\
  (exists document : json,
     NaivePolicy.save {| NaivePolicy.state_action_mass := Some mass;
                         NaivePolicy.state_action_weight := Some weight |}
     = (Ok document, {| NaivePolicy.state_action_mass := Some mass;
                        NaivePolicy.state_action_weight := Some weight |}) /\
     NaivePolicy.load document other_policy
     = (Ok tt, {| NaivePolicy.state_action_mass := Some mass;
                  NaivePolicy.state_action_weight := Some weight |})).
Proof.
  split.
  - exists [("state_visits"%string, dump_items JInt (map_to_list visits));
            ("state_wins"%string, dump_items JInt (map_to_list wins))].
    split; [reflexivity |].
    unfold NaiveValue.load, bind, lift.
    change (json_getitem _ "state_visits")
      with (Ok (dump_items JInt (map_to_list visits)) : result json_table).
    change (json_getitem _ "state_wins")
      with (Ok (dump_items JInt (map_to_list wins)) : result json_table).
    cbv beta iota. rewrite (load_dict_dumped JInt json_int json_int_JInt).
    unfold NaiveValue.set_state_visits, modify. cbv beta iota.
    rewrite (load_dict_dumped JInt json_int json_int_JInt). reflexivity.
  - exists [("state_action_mass"%string, dump_items JFloat (map_to_list mass));
            ("state_action_weight"%string, dump_items JFloat (map_to_list weight))].
    split; [reflexivity |].
    unfold NaivePolicy.load, bind, lift.
    change (json_getitem _ "state_action_mass")
      with (Ok (dump_items JFloat (map_to_list mass)) : result json_table).
    change (json_getitem _ "state_action_weight")
      with (Ok (dump_items JFloat (map_to_list weight)) : result json_table).
    cbv beta iota. rewrite (load_dict_dumped JFloat json_float json_float_JFloat).
    unfold NaivePolicy.set_state_action_mass, modify. cbv beta iota.
    rewrite (load_dict_dumped JFloat json_float json_float_JFloat). reflexivity.
Qed.

(** * NaiveValue: prediction *)

Lemma hashable_tuple_of_ints (row : list Z) : hashable (tuple_of_ints row) = true.
Proof.
  unfold tuple_of_ints. cbn [hashable].
  induction row as [| z row IH]; [done | exact IH].
Qed.

(** A batch of tuples of ints: its tuple can be hashed, and it is not a
    tuple of ints unless the batch is empty. *)
Lemma hashable_batch (rows : list (list Z)) :
  hashable (PTuple (map tuple_of_ints rows)) = true.
Proof.
  cbn [hashable]. induction rows as [| row rows IH]; [done |].
  cbn [map forallb]. by rewrite hashable_tuple_of_ints, IH.
Qed.

Lemma as_int_tuple_batch (rows : list (list Z)) :
  rows <> [] -> as_int_tuple (PTuple (map tuple_of_ints rows)) = None.
Proof. destruct rows as [| row rows]; [done | reflexivity]. Qed.

Lemma predict_row_wins_only (wins : gmap (list Z) Z) (self : NaiveValue.state)
    (features : list pyobj) (values : list pynum) (board_features : pyobj) :
  NaiveValue.state_wins self = Some wins ->
  hashable (PTuple features) = true ->
  as_int_tuple (PTuple features) = None ->
  NaiveValue.predict_row features values board_features self
  = (Ok (values ++ [PyInt 0]), self).
Proof.
  intros Hwins Hhash Hkey.
  unfold NaiveValue.predict_row, try_except, bind, gets, lift, py_getitem_obj.
  by rewrite Hwins, Hhash, Hkey.
Qed.

Lemma predict_rows_wins_only (wins : gmap (list Z) Z) (self : NaiveValue.state)
    (features rows : list pyobj) :
  NaiveValue.state_wins self = Some wins ->
  hashable (PTuple features) = true ->
  as_int_tuple (PTuple features) = None ->
  forall values : list pynum,
    foldM (NaiveValue.predict_row features) rows values self
    = (Ok (values ++ map (fun _ => PyInt 0) rows), self).
Proof.
  intros Hwins Hhash Hkey. induction rows as [| row rows IH]; intros values.
  - simpl. by rewrite app_nil_r.
  - rewrite foldM_cons, (predict_row_wins_only wins) by done.
    rewrite IH. simpl. by rewrite <- app_assoc.
Qed.

(** Whatever the tables hold, every row of every batch of tuples gets the
    fallback. *)
Lemma predict_batch_fallback (wins : gmap (list Z) Z) (self : NaiveValue.state)
    (rows : list (list Z)) :
  NaiveValue.state_wins self = Some wins ->
  NaiveValue.predict (map tuple_of_ints rows) self
  = (Ok (map (fun _ => PyInt 0) rows), self).
Proof.
  intros Hwins. unfold NaiveValue.predict.
  destruct (decide (rows = [])) as [-> | Hne]; [done |].
  rewrite (predict_rows_wins_only wins);
    [by rewrite map_map | done | apply hashable_batch | by apply as_int_tuple_batch].
Qed.

(** A batch that holds a list or an array cannot be hashed: the first
    lookup raises [TypeError], which [predict] does not catch. *)
Lemma predict_batch_unhashable (wins : gmap (list Z) Z) (self : NaiveValue.state)
    (features : list pyobj) :
  NaiveValue.state_wins self = Some wins ->
  hashable (PTuple features) = false ->
  NaiveValue.predict features self = (Raise TypeError, self).
Proof.
  intros Hwins Hhash. unfold NaiveValue.predict.
  destruct features as [| row rows] eqn:Hf; [discriminate |].
  rewrite <- Hf in *. rewrite Hf at 2. rewrite foldM_cons.
  unfold NaiveValue.predict_row, try_except, bind, gets, lift, py_getitem_obj, raise.
  by rewrite Hwins, Hhash.
Qed.

(** C2 (the code departs from it). On an estimator that holds the key
    [(0, 1)] with 3 wins in 6 visits, [predict] on the batch [[(0, 1)]]
    yields the fallback [0] for the row, where [wins / visits] is 0.5: the
    key it looks up is the tuple of the whole batch, [((0, 1),)]. *)
Theorem NaiveValue_predict_seen_row_gets_fallback :
  NaiveValue.predict [tuple_of_ints [0; 1]] seen_value = (Ok [PyInt 0], seen_value) /\
  NaiveValue.state_wins seen_value = Some {[ [0; 1] := 3 ]} /\
  NaiveValue.state_visits seen_value = Some {[ [0; 1] := 6 ]} /\
  py_int_truediv 3 6 = Ok 0.5%float.
Proof.
  split; [| done].
  exact (predict_batch_fallback {[ [0; 1] := 3 ]} seen_value [[0; 1]] eq_refl).
Qed.

(** * NaiveValue: training *)

Section ValueTrain.

Variable Samples : Type.
Variable split_train_test :
  Samples -> float -> string -> list (list Z * Z) * list (list Z * Z).
Variable report_test_error : list (list Z * Z) -> M NaiveValue.state unit.

(** C10. [NaiveValue.train] raises [RuntimeError("Broken")] on every input,
    before anything else: the estimator's two tables are exactly what they
    were before the call. *)
Theorem NaiveValue_train_raises (samples : Samples) (test_fraction : float)
    (self : NaiveValue.state) :
  NaiveValue.train Samples split_train_test report_test_error samples test_fraction self
  = (Raise (RuntimeError "Broken"), self).
Proof. reflexivity. Qed.

End ValueTrain.

(** * The statements at concrete inputs *)

(** C1 fails for the tabular policy estimator: trained on [ragged_samples],
    whose label vectors each sum to 1.0, it predicts [[0.5, 1.0]] for the
    state [[0]] with two allowable actions, and these sum to 1.5. *)
Lemma NaivePolicy_predict_sums_to_one_and_a_half :
  exists self : NaivePolicy.state,
    NaivePolicy.train ragged_samples untrained_policy = (Ok tt, self) /\
    NaivePolicy.predict [0] [0; 1] self = (Ok [0.5%float; 1%float], self) /\
    fold_left PrimFloat.add [0.5%float; 1%float] 0%float = 1.5%float /\
    PrimFloat.abs (PrimFloat.sub 1.5 1) = 0.5%float.
Proof.
  exists (NaivePolicy.train ragged_samples untrained_policy).2.
  vm_compute. done.
Qed.

(** C1 (amended) at two allowable actions, over a backend that scores
    every row 0.5 and the estimator trained on [ragged_samples]. *)
Lemma policy_predict_length_witness :
  UniformPolicy.predict [3%float; 4%float] [0; 1]
  = Ok (UniformPolicy.Probabilities [0.5%float; 0.5%float]) /\
  (exists (move_probabilities : list float) (log' : list GBDTPolicy.call),
     GBDTPolicy.predict half_backend stale_memory [3%float; 4%float] [0; 1] []
     = (Ok move_probabilities, log') /\
     length move_probabilities = 2%nat /\
     (2%nat = 1%nat -> move_probabilities = [1%float]) /\
     (2%nat <> 1%nat ->
      let scores :=
        map float32 (half_backend (policy_rows [3%float; 4%float] [0; 1])) in
      move_probabilities = GBDTPolicy.np_divide scores (GBDTPolicy.np_sum scores))) /\
  (exists (mass weight : gmap (list Z) float) (move_probabilities : list float),
     NaivePolicy.state_action_mass
       (NaivePolicy.train ragged_samples untrained_policy).2 = Some mass /\
     NaivePolicy.state_action_weight
       (NaivePolicy.train ragged_samples untrained_policy).2 = Some weight /\
     NaivePolicy.predict [0] [0; 1]
       (NaivePolicy.train ragged_samples untrained_policy).2
     = (Ok move_probabilities,
        (NaivePolicy.train ragged_samples untrained_policy).2) /\
     length move_probabilities = 2%nat /\
     (move_probabilities = [0.5%float; 0.5%float] \/
      forall i, (i < 2)%nat ->
        exists m w,
          mass !! ([0] ++ [Z.of_nat i]) = Some m /\
          weight !! ([0] ++ [Z.of_nat i]) = Some w /\
          move_probabilities !! i = Some (PrimFloat.div m w))).
Proof.
  apply (policy_predict_length half_backend stale_memory
           (fun batch => length_map _ batch)
           [3%float; 4%float] [0] [0; 1] [] ragged_samples untrained_policy
           (NaivePolicy.train ragged_samples untrained_policy).2).
  - vm_compute. reflexivity.
  - discriminate.
  - vm_compute. reflexivity.
  - intros _. repeat constructor.
Defined.

(** C3 fails: on the all-zero score vector [[0.0, 0.0]] the normalisation
    returns [[nan, nan]]; [predict] completes, and no [ZeroDivisionError] is
    raised. *)
Lemma GBDTPolicy_predict_zero_scores_returns_nan :
  zero_backend [[0%float; 3%float; 4%float]; [2%float; 3%float; 4%float]]
  = [0%float; 0%float] /\
  GBDTPolicy.np_divide [0%float; 0%float] (GBDTPolicy.np_sum [0%float; 0%float])
  = [nan; nan] /\
  GBDTPolicy.predict zero_backend stale_memory [3%float; 4%float] [0; 2] []
  = (Ok [nan; nan],
     [GBDTPolicy.NumpyEmpty 2 3;
      GBDTPolicy.TreelitePredict [[0%float; 3%float; 4%float];
                                  [2%float; 3%float; 4%float]]]) /\
  (GBDTPolicy.predict zero_backend stale_memory [3%float; 4%float] [0; 2] []).1
  <> Raise ZeroDivisionError.
Proof. vm_compute. repeat split; discriminate. Qed.

(** C3 (amended) at two allowable actions and a backend that scores every
    row 0.0. *)
Lemma GBDTPolicy_predict_all_zero_scores_witness :
  (GBDTPolicy.predict zero_backend stale_memory [3%float; 4%float] [0; 2] []).1
  = Ok [nan; nan].
Proof.
  apply (GBDTPolicy_predict_all_zero_scores zero_backend stale_memory
           [3%float; 4%float] [0; 2] []).
  - simpl. lia.
  - repeat constructor.
  - vm_compute. repeat constructor.
Defined.

(** C4 on the estimator trained on [ragged_samples], asked about three
    actions of the state [[0]]: the keys [(0, 0)] and [(0, 1)] are in the
    tables, [(0, 2)] is not, and the answer is uniform. *)
Lemma NaivePolicy_predict_all_or_nothing_witness :
  exists mass weight : gmap (list Z) float,
    NaivePolicy.state_action_mass
      (NaivePolicy.train ragged_samples untrained_policy).2 = Some mass /\
    NaivePolicy.state_action_weight
      (NaivePolicy.train ragged_samples untrained_policy).2 = Some weight /\
    mass !! [0; 0] = Some 6%float /\
    weight !! [0; 0] = Some 12%float /\
    mass !! [0; 2] = None /\
    NaivePolicy.predict [0] [7; 8; 9]
      (NaivePolicy.train ragged_samples untrained_policy).2
    = (Ok [PrimFloat.div 1 3; PrimFloat.div 1 3; PrimFloat.div 1 3],
       (NaivePolicy.train ragged_samples untrained_policy).2).
Proof.
  destruct (NaivePolicy_predict_all_or_nothing ragged_samples untrained_policy
              (NaivePolicy.train ragged_samples untrained_policy).2 [0] [7; 8; 9])
    as (mass & weight & Hm & Hw & Hmiss & _).
  - vm_compute. reflexivity.
  - discriminate.
  - vm_compute. reflexivity.
  - exists mass, weight. split; [done |]. split; [done |].
    assert (Hmass : mass = {[ [0; 0] := 6%float; [0; 1] := 6%float ]}).
    { apply (inj Some). rewrite <- Hm. vm_compute. reflexivity. }
    assert (Hweight : weight = {[ [0; 0] := 12%float; [0; 1] := 6%float ]}).
    { apply (inj Some). rewrite <- Hw. vm_compute. reflexivity. }
    split; [subst mass; vm_compute; reflexivity |].
    split; [subst weight; vm_compute; reflexivity |].
    split; [subst mass; vm_compute; reflexivity |].
    apply Hmiss. exists 2%nat. split; [simpl; lia |]. left.
    subst mass. vm_compute. reflexivity.
Defined.

(** C5 fails as stated: the array is [float32].  With the agent feature
    0.1 and the actions 0 and 16777217 = 2^24 + 1, the rows handed to the
    backend hold 0.10000000149011612 and 16777216.0; and with the action
    2^1024, which [float] refuses, no row reaches the backend. *)
Lemma GBDTPolicy_predict_rows_are_narrowed :
  GBDTPolicy.predict half_backend stale_memory [one_tenth] [0; 16777217] []
  = (Ok [0.5%float; 0.5%float],
     [GBDTPolicy.NumpyEmpty 2 2;
      GBDTPolicy.TreelitePredict [[0%float; one_tenth32];
                                  [16777216%float; one_tenth32]]]) /\
  [float_of_int 16777217] ++ [one_tenth] = [16777217%float; one_tenth] /\
  PrimFloat.eqb 16777216 16777217 = false /\
  PrimFloat.eqb one_tenth32 one_tenth = false /\
  GBDTPolicy.predict half_backend stale_memory [one_tenth] [0; 2 ^ 1024] []
  = (Raise OverflowError, [GBDTPolicy.NumpyEmpty 2 2]).
Proof. vm_compute. repeat split. Qed.

(** C5 (amended) at [agent_features = [3, 4]] and
    [allowable_actions = [0, 2]]: the rows are [[0, 3, 4]] and
    [[2, 3, 4]]. *)
Lemma GBDTPolicy_predict_expands_rows_witness :
  exists rows : list (list float),
    length rows = 2%nat /\
    rows !! 0%nat = Some [0%float; 3%float; 4%float] /\
    rows !! 1%nat = Some [2%float; 3%float; 4%float] /\
    (GBDTPolicy.predict half_backend stale_memory [3%float; 4%float] [0; 2] []).2
    = [GBDTPolicy.NumpyEmpty 2 3; GBDTPolicy.TreelitePredict rows].
Proof.
  destruct (GBDTPolicy_predict_expands_rows half_backend stale_memory
              [3%float; 4%float] [0; 2] [])
    as [Hrows _].
  - simpl. lia.
  - destruct Hrows as (rows & Hrun & Hlen & _ & _ & Hexact).
    + repeat constructor.
    + exists rows. split; [exact Hlen |].
      split; [apply (Hexact 0%nat 0 eq_refl); repeat constructor |].
      split; [apply (Hexact 1%nat 2 eq_refl); repeat constructor |].
      rewrite Hrun. reflexivity.
Defined.

(** C7 at the single allowable action [5]. *)
Lemma GBDTPolicy_predict_single_action_witness :
  GBDTPolicy.predict zero_backend stale_memory [3%float; 4%float] [5] []
  = (Ok [1%float], []).
Proof.
  apply (GBDTPolicy_predict_single_action zero_backend stale_memory
           [3%float; 4%float] [5] []).
  reflexivity.
Defined.

(** C6 fails as stated: the arrays returned are [float32].  On the labels
    [[0.2, 0.8], [0.5, 0.5]] the scalar labels returned are
    0.20000000298023224 and 0.80000001192092896, then 0.5 and 0.5. *)
Lemma extract_policy_observations_labels_are_narrowed :
  GBDTPolicy.extract_policy_observations
    [[0%float; 1%float]; [1%float; 0%float]]
    [[one_fifth; four_fifths]; [0.5%float; 0.5%float]] tt
  = (Ok ([[0%float; 0%float; 1%float]; [1%float; 0%float; 1%float];
          [0%float; 1%float; 0%float]; [1%float; 1%float; 0%float]],
         [one_fifth32; four_fifths32; 0.5%float; 0.5%float]), tt) /\
  PrimFloat.eqb one_fifth32 one_fifth = false /\
  PrimFloat.eqb four_fifths32 four_fifths = false.
Proof. vm_compute. repeat split. Qed.

(** C6 (amended) at two states of two actions each: four rows, and the
    pair (state 1, action 1) at position 3, with a label that is a binary32
    value and one that is not. *)
Lemma extract_policy_observations_rows_witness :
  exists (rows : list (list float)) (scalar_labels : list float),
    GBDTPolicy.extract_policy_observations
      [[0%float; 1%float]; [1%float; 0%float]]
      [[one_fifth; four_fifths]; [0.5%float; 0.75%float]] tt
    = (Ok (rows, scalar_labels), tt) /\
    length rows = 4%nat /\
    rows !! 3%nat = Some [1%float; 1%float; 0%float] /\
    scalar_labels !! 3%nat = Some 0.75%float /\
    scalar_labels !! 1%nat = Some (float32 four_fifths).
Proof.
  destruct (extract_policy_observations_rows
              [[0%float; 1%float]; [1%float; 0%float]]
              [[one_fifth; four_fifths]; [0.5%float; 0.75%float]] tt)
    as (rows & scalar_labels & Hrun & Hrows & _ & Hat).
  - reflexivity.
  - exists rows, scalar_labels. split; [exact Hrun |]. split; [exact Hrows |].
    destruct (Hat 1%nat 1%nat [1%float; 0%float] [0.5%float; 0.75%float] 0.75%float
                  eq_refl eq_refl eq_refl) as (_ & _ & Hrow & Hlabel).
    destruct (Hat 0%nat 1%nat [0%float; 1%float] [one_fifth; four_fifths] four_fifths
                  eq_refl eq_refl eq_refl) as (_ & Hnarrow & _ & _).
    split; [apply Hrow; repeat constructor |].
    split; [apply Hlabel; reflexivity | exact Hnarrow].
Defined.

(** Two states of two actions each give the rows
    [[0,0,1],[1,0,1],[0,1,0],[1,1,0]], state-major and action-minor. *)
Example extract_policy_observations_example :
  GBDTPolicy.extract_policy_observations
    [[0%float; 1%float]; [1%float; 0%float]]
    [[0.25%float; 0.75%float]; [0.5%float; 0.5%float]] tt
  = (Ok ([[0%float; 0%float; 1%float]; [1%float; 0%float; 1%float];
          [0%float; 1%float; 0%float]; [1%float; 1%float; 0%float]],
         [0.25%float; 0.75%float; 0.5%float; 0.5%float]), tt).
Proof. vm_compute. reflexivity. Qed.

(** A state without labels contributes no row. *)
Example extract_policy_observations_no_labels :
  GBDTPolicy.extract_policy_observations
    [[0%float; 1%float]; [1%float; 0%float]] [[]; [1%float]] tt
  = (Ok ([[0%float; 1%float; 0%float]], [1%float]), tt).
Proof. vm_compute. reflexivity. Qed.

(** [sum] on ten cells 0.1: the eight running sums give 1.0, where adding
    the cells one after the other gives 1.0000001192092896. *)
Example np_sum_ten_tenths :
  GBDTPolicy.np_sum (repeat one_tenth32 10) = 1%float /\
  fold_left add32 (repeat one_tenth32 10) 0%float = 0x1.000002p+0%float.
Proof. vm_compute. split; reflexivity. Qed.

(** C8 fails for the value estimator: with the key [(0, 1)] six times in the
    training set, [NaiveValue.train] raises and the estimator still has no
    table at all, so the key has not survived. *)
Lemma NaiveValue_train_keeps_no_key :
  keep_all (repeat ([0; 1], 1) 6) default_test_fraction "value"
  = (repeat ([0; 1], 1) 6, []) /\
  NaiveValue.train (list (list Z * Z)) keep_all no_report
    (repeat ([0; 1], 1) 6) default_test_fraction untrained_value
  = (Raise (RuntimeError "Broken"), untrained_value) /\
  NaiveValue.state_visits untrained_value = None /\
  NaiveValue.state_wins untrained_value = None.
Proof. repeat split. Qed.

(** The support threshold on counts: a key accumulated five times is pruned,
    a key accumulated six times is kept. *)
Example NaivePolicy_train_five_times :
  NaivePolicy.train (repeated_samples 5) untrained_policy
  = (Ok tt, {| NaivePolicy.state_action_mass := Some ∅;
               NaivePolicy.state_action_weight := Some ∅ |}).
Proof. vm_compute. reflexivity. Qed.

Example NaivePolicy_train_six_times :
  NaivePolicy.train (repeated_samples 6) untrained_policy
  = (Ok tt, {| NaivePolicy.state_action_mass := Some {[ [0; 0] := 6%float ]};
               NaivePolicy.state_action_weight := Some {[ [0; 0] := 6%float ]} |}).
Proof. vm_compute. reflexivity. Qed.

(** Samples tagged ["value"] are skipped. *)
Example NaivePolicy_train_skips_value_samples :
  NaivePolicy.train (repeat ("value"%string, [0], [1%float]) 6) untrained_policy
  = (Ok tt, {| NaivePolicy.state_action_mass := Some ∅;
               NaivePolicy.state_action_weight := Some ∅ |}).
Proof. vm_compute. reflexivity. Qed.

(** [load] truncates a float found where the value estimator expects an
    integer count, and leaves the first table replaced when the second
    field is missing. *)
Example NaiveValue_load_truncates :
  NaiveValue.load
    [("state_visits"%string, [([0], JInt 6)]);
     ("state_wins"%string, [([0], JFloat 2.5)])]
    untrained_value
  = (Ok tt, {| NaiveValue.state_visits := Some {[ [0] := 6 ]};
               NaiveValue.state_wins := Some {[ [0] := 2 ]} |}).
Proof. vm_compute. reflexivity. Qed.

Example NaiveValue_load_partial :
  NaiveValue.load visits_only_document untrained_value
  = (Raise KeyError, {| NaiveValue.state_visits := Some {[ [0; 1] := 6 ]};
                        NaiveValue.state_wins := None |}).
Proof. vm_compute. reflexivity. Qed.

(** * Further properties of NaivePolicy.train *)

Lemma for_each_policy_samples (samples : list NaivePolicy.sample)
    (self : NaivePolicy.state) :
  for_each samples NaivePolicy.accumulate_sample self
  = for_each (policy_samples samples) NaivePolicy.accumulate_sample self.
Proof.
  unfold for_each. revert self.
  induction samples as [| [[sample_type features] labels] samples IH]; intros self;
    [done |].
  cbn [policy_samples List.filter fst]. rewrite foldM_cons.
  destruct (String.eqb sample_type "value") eqn:Hvalue; cbn [negb].
  - unfold NaivePolicy.accumulate_sample at 1. rewrite Hvalue. apply IH.
  - rewrite foldM_cons.
    destruct (NaivePolicy.accumulate_sample (sample_type, features, labels) self)
      as [[[] | e] self']; [apply IH | done].
Qed.

Lemma train_policy_samples (samples : list NaivePolicy.sample)
    (self other : NaivePolicy.state) :
  NaivePolicy.train samples self = NaivePolicy.train (policy_samples samples) other.
Proof.
  unfold NaivePolicy.train, NaivePolicy.train_accumulate, bind.
  cbn [NaivePolicy.set_state_action_mass NaivePolicy.set_state_action_weight modify].
  by rewrite for_each_policy_samples.
Qed.

(** X1. What [train] returns and leaves behind depends only on the samples
    that are not tagged ["value"]: neither on the samples with that tag nor
    on what the estimator held before. *)
Theorem NaivePolicy_train_depends_on_policy_samples
    (samples : list NaivePolicy.sample) (self other : NaivePolicy.state) :
  NaivePolicy.train samples self = NaivePolicy.train (policy_samples samples) other.
Proof. apply train_policy_samples. Qed.

Lemma enumerate_from_keys_NoDup (features : list Z) (labels : list float) (n : nat) :
  NoDup (map (fun labelled : nat * float => features ++ [Z.of_nat labelled.1])
             (enumerate_from n labels)) /\
  forall key, key ∈ map (fun labelled : nat * float => features ++ [Z.of_nat labelled.1])
                        (enumerate_from n labels) ->
              exists i, (n <= i)%nat /\ key = features ++ [Z.of_nat i].
Proof.
  revert n. induction labels as [| label labels IH]; intros n; cbn [enumerate_from map fst].
  - split; [constructor | by intros key Hkey%elem_of_nil].
  - destruct (IH (S n)) as [Hnodup Hin]. split.
    + constructor; [| done]. intros (i & Hi & Heq)%Hin.
      apply app_inv_head in Heq. injection Heq as Heq. lia.
    + intros key [-> | Hkey]%elem_of_cons; [exists n; split; [lia | done] |].
      destruct (Hin key Hkey) as (i & Hi & ->). exists i. split; [lia | done].
Qed.

Lemma filter_eq_not_elem_of {A} `{EqDecision A} (l : list A) (x : A) :
  x ∉ l -> filter (fun y => y = x) l = [].
Proof.
  induction l as [| y l IH]; [done |].
  intros [Hne Hl]%not_elem_of_cons. rewrite filter_cons.
  destruct (decide (y = x)) as [Heq | _]; [by subst | by apply IH].
Qed.

Lemma NoDup_filter_length {A} `{EqDecision A} (l : list A) (x : A) :
  NoDup l -> (length (filter (fun y => y = x) l) <= 1)%nat.
Proof.
  induction 1 as [| y l Hy Hnodup IH]; [simpl; lia |].
  rewrite filter_cons. destruct (decide (y = x)) as [-> | Hne]; [| exact IH].
  rewrite filter_eq_not_elem_of by done. simpl. lia.
Qed.

Lemma sample_keys_once (key : list Z) (s : NaivePolicy.sample) :
  (length (filter (fun k => k = key) (sample_keys s)) <= 1)%nat.
Proof.
  destruct s as [[sample_type features] labels]. unfold sample_keys.
  destruct (String.eqb sample_type "value"); [simpl; lia |].
  apply NoDup_filter_length, enumerate_from_keys_NoDup.
Qed.

(** A key is added to at most once per sample. *)
Lemma occurrences_le_length (key : list Z) (samples : list NaivePolicy.sample) :
  (occurrences key samples <= length samples)%nat.
Proof.
  unfold occurrences. induction samples as [| s samples IH]; [done |].
  cbn [flat_map length]. rewrite filter_app, length_app.
  pose proof (sample_keys_once key s). lia.
Qed.

Lemma train_few_samples (samples : list NaivePolicy.sample)
    (self : NaivePolicy.state) :
  (length samples <= 5)%nat ->
  NaivePolicy.train samples self
  = (Ok tt, {| NaivePolicy.state_action_mass := Some ∅;
               NaivePolicy.state_action_weight := Some ∅ |}).
Proof.
  intros Hfew.
  destruct (train_tables samples self)
    as (mass & weight & mass' & weight' & Hacc & Htrain & Hkeys & Hspec).
  pose proof (train_accumulate_weight samples self mass weight Hacc) as Hcount.
  assert (Hnone : forall key, mass' !! key = None /\ weight' !! key = None).
  { intros key. specialize (Hspec key).
    pose proof (occurrences_le_length key samples) as Hocc.
    pose proof (bump_few (occurrences key samples) ltac:(lia)) as Hle.
    rewrite <- Hcount in Hle.
    destruct (weight !! key) as [x |]; [by rewrite Hle in Hspec | done]. }
  rewrite Htrain. do 3 f_equal; apply map_empty; intros key; apply Hnone.
Qed.

(** X2. Training on samples of which five or fewer are not tagged ["value"]
    leaves both tables empty: a key is added to at most once per sample, so
    none reaches the support of six observations. *)
Theorem NaivePolicy_train_few_samples (samples : list NaivePolicy.sample)
    (self : NaivePolicy.state) :
  (length (policy_samples samples) <= 5)%nat ->
  NaivePolicy.train samples self
  = (Ok tt, {| NaivePolicy.state_action_mass := Some ∅;
               NaivePolicy.state_action_weight := Some ∅ |}).
Proof.
  intros Hfew. rewrite (train_policy_samples samples self self).
  by apply train_few_samples.
Qed.

(** * NaivePolicy: masses sum labels *)

Lemma accumulate_labels_mass (features : list Z) (labels : list float) :
  forall (n : nat) (mass weight : gmap (list Z) float),
    exists mass' weight' : gmap (list Z) float,
      for_each (enumerate_from n labels)
               (fun labelled => NaivePolicy.accumulate features labelled.1 labelled.2)
        {| NaivePolicy.state_action_mass := Some mass;
           NaivePolicy.state_action_weight := Some weight |}
      = (Ok tt, {| NaivePolicy.state_action_mass := Some mass';
                   NaivePolicy.state_action_weight := Some weight' |}) /\
      forall key,
        mass' !! key
        = fold_left add_label
            (map snd (filter (fun labelled : nat * float =>
                                features ++ [Z.of_nat labelled.1] = key)
                             (enumerate_from n labels)))
            (mass !! key).
Proof.
  unfold for_each.
  induction labels as [| label labels IH]; intros n mass weight.
  - exists mass, weight. done.
  - cbn [enumerate_from]. rewrite foldM_cons. cbn [fst snd].
    rewrite accumulate_tables.
    edestruct IH as (mass' & weight' & Hrun & Hm).
    exists mass', weight'. split; [exact Hrun |].
    intros key. rewrite Hm, filter_cons. cbn [fst].
    destruct (decide (features ++ [Z.of_nat n] = key)) as [<- | Hne].
    + cbn [map snd fold_left]. by rewrite lookup_insert_eq.
    + by rewrite lookup_insert_ne.
Qed.

Lemma accumulate_sample_mass (s : NaivePolicy.sample)
    (mass weight : gmap (list Z) float) :
  exists mass' weight' : gmap (list Z) float,
    NaivePolicy.accumulate_sample s
      {| NaivePolicy.state_action_mass := Some mass;
         NaivePolicy.state_action_weight := Some weight |}
    = (Ok tt, {| NaivePolicy.state_action_mass := Some mass';
                 NaivePolicy.state_action_weight := Some weight' |}) /\
    forall key, mass' !! key = fold_left add_label (sample_labels key s) (mass !! key).
Proof.
  destruct s as [[sample_type features] labels].
  unfold NaivePolicy.accumulate_sample, sample_labels.
  destruct (String.eqb sample_type "value").
  - exists mass, weight. done.
  - apply accumulate_labels_mass.
Qed.

Lemma accumulate_samples_mass (samples : list NaivePolicy.sample) :
  forall mass weight : gmap (list Z) float,
    exists mass' weight' : gmap (list Z) float,
      for_each samples NaivePolicy.accumulate_sample
        {| NaivePolicy.state_action_mass := Some mass;
           NaivePolicy.state_action_weight := Some weight |}
      = (Ok tt, {| NaivePolicy.state_action_mass := Some mass';
                   NaivePolicy.state_action_weight := Some weight' |}) /\
      forall key,
        mass' !! key
        = fold_left add_label (flat_map (sample_labels key) samples) (mass !! key).
Proof.
  unfold for_each.
  induction samples as [| s samples IH]; intros mass weight.
  - exists mass, weight. done.
  - destruct (accumulate_sample_mass s mass weight) as (mass1 & weight1 & Hs & H1).
    destruct (IH mass1 weight1) as (mass' & weight' & Hrun & Hm).
    exists mass', weight'. split.
    + by rewrite foldM_cons, Hs.
    + intros key. rewrite Hm, H1. cbn [flat_map]. by rewrite fold_left_app.
Qed.

Lemma sample_labels_length (key : list Z) (s : NaivePolicy.sample) :
  length (sample_labels key s) = length (filter (fun k => k = key) (sample_keys s)).
Proof.
  destruct s as [[sample_type features] labels]. unfold sample_labels, sample_keys.
  destruct (String.eqb sample_type "value"); [done |].
  unfold enumerate. generalize 0%nat.
  induction labels as [| label labels IH]; intros n; [done |].
  cbn [enumerate_from map fst]. rewrite !filter_cons. cbn [fst].
  destruct (decide (features ++ [Z.of_nat n] = key)); cbn [map length]; by rewrite IH.
Qed.

Lemma labels_length_occurrences (key : list Z) (samples : list NaivePolicy.sample) :
  length (flat_map (sample_labels key) samples) = occurrences key samples.
Proof.
  unfold occurrences. induction samples as [| s samples IH]; [done |].
  cbn [flat_map]. by rewrite filter_app, !length_app, sample_labels_length, IH.
Qed.

(** X3. What a trained estimator stores for a key: the mass is the
    floating-point sum, taken in the order of the samples and starting from
    0.0, of the labels the samples gave to that key, and the weight is 1.0
    added once per such label. *)
Theorem NaivePolicy_train_stores_label_sums (samples : list NaivePolicy.sample)
    (self : NaivePolicy.state) :
  exists mass weight : gmap (list Z) float,
    NaivePolicy.train samples self
    = (Ok tt, {| NaivePolicy.state_action_mass := Some mass;
                 NaivePolicy.state_action_weight := Some weight |}) /\
    forall key m w,
      mass !! key = Some m -> weight !! key = Some w ->
      Some m = fold_left add_label (flat_map (sample_labels key) samples) None /\
      Some w = Nat.iter (occurrences key samples) bump None /\
      length (flat_map (sample_labels key) samples) = occurrences key samples.
Proof.
  destruct (train_tables samples self)
    as (mass & weight & mass' & weight' & Hacc & Htrain & Hkeys & Hspec).
  pose proof (train_accumulate_weight samples self mass weight Hacc) as Hcount.
  exists mass', weight'. split; [done |].
  intros key m w Hm Hw. specialize (Hspec key).
  destruct (weight !! key) as [x |] eqn:Hx; [| destruct Hspec; congruence].
  destruct (PrimFloat.leb x 5); destruct Hspec as [Hm' Hw']; [congruence |].
  split; [| split].
  - rewrite <- Hm, Hm'.
    destruct (accumulate_samples_mass samples ∅ ∅) as (mass2 & weight2 & Hrun & Hsum).
    unfold NaivePolicy.train_accumulate, bind,
      NaivePolicy.set_state_action_mass, NaivePolicy.set_state_action_weight, modify in Hacc.
    simpl in Hacc. rewrite Hrun in Hacc. injection Hacc as <- <-.
    by rewrite Hsum, lookup_empty.
  - rewrite <- Hcount, Hx. congruence.
  - apply labels_length_occurrences.
Qed.

(** * Loops that only read *)

Lemma foldM_reads {S A B} (body : B -> A -> M S B) (l : list A) :
  (forall b x s, (body b x s).2 = s) ->
  forall b s, (foldM body l b s).2 = s.
Proof.
  intros Hbody. induction l as [| x l IH]; intros b s; [done |].
  rewrite foldM_cons. specialize (Hbody b x s).
  destruct (body b x s) as [[b' | e] s']; simpl in Hbody; subst s'; [apply IH | done].
Qed.

(** * Further properties of NaivePolicy.predict *)

Lemma predict_action_reads (features : list Z) (move_probabilities : list float)
    (indexed : nat * Z) (self : NaivePolicy.state) :
  (NaivePolicy.predict_action features move_probabilities indexed self).2 = self.
Proof.
  destruct indexed as [i action].
  unfold NaivePolicy.predict_action, bind, gets, lift, ret. cbn [fst snd].
  destruct (py_getitem _ _) as [m | e]; [| done].
  destruct (py_getitem _ _) as [w | e]; [| done].
  by destruct (py_truediv m w).
Qed.

(** X4. [predict] only reads: whatever the estimator holds, whatever the
    query and whether it returns or raises, the estimator is afterwards
    exactly what it was. *)
Theorem NaivePolicy_predict_reads_only (features allowable_actions : list Z)
    (self : NaivePolicy.state) :
  (NaivePolicy.predict features allowable_actions self).2 = self.
Proof.
  unfold NaivePolicy.predict, try_except.
  pose proof (foldM_reads (NaivePolicy.predict_action features)
                (enumerate allowable_actions) (predict_action_reads features) [] self)
    as Hloop.
  destruct (foldM _ _ _ _) as [[l | e] self']; simpl in Hloop; subst self'; [done |].
  destruct e; try done.
  unfold NaivePolicy.uniform, bind, lift, ret.
  by destruct (py_truediv _ _).
Qed.

Lemma predict_loop_positions (features : list Z) (l l' : list Z) :
  length l = length l' ->
  forall (n : nat) (move_probabilities : list float) (self : NaivePolicy.state),
    foldM (NaivePolicy.predict_action features) (enumerate_from n l)
          move_probabilities self
    = foldM (NaivePolicy.predict_action features) (enumerate_from n l')
            move_probabilities self.
Proof.
  revert l'. induction l as [| a l IH]; intros [| a' l'] Hlen; try discriminate; [done |].
  intros n acc self. cbn [enumerate_from]. rewrite !foldM_cons.
  change (NaivePolicy.predict_action features acc (n, a') self)
    with (NaivePolicy.predict_action features acc (n, a) self).
  destruct (NaivePolicy.predict_action features acc (n, a) self) as [[acc' | e] self'];
    [| done].
  apply IH. by injection Hlen.
Qed.

(** X5. [predict] looks at how many allowable actions there are and never at
    which: two action lists of the same length get the same answer. *)
Theorem NaivePolicy_predict_uses_positions (features : list Z)
    (allowable_actions allowable_actions' : list Z) (self : NaivePolicy.state) :
  length allowable_actions = length allowable_actions' ->
  NaivePolicy.predict features allowable_actions self
  = NaivePolicy.predict features allowable_actions' self.
Proof.
  intros Hlen. unfold NaivePolicy.predict, try_except, enumerate.
  rewrite (predict_loop_positions features _ _ Hlen).
  unfold NaivePolicy.uniform, len. by rewrite Hlen.
Qed.

(** X6. On an estimator without a mass table (one never trained nor loaded)
    [predict] raises [TypeError] for every non-empty action list: the
    [except KeyError] clause does not catch it. *)
Theorem NaivePolicy_predict_untrained (features allowable_actions : list Z)
    (self : NaivePolicy.state) :
  NaivePolicy.state_action_mass self = None ->
  allowable_actions <> [] ->
  NaivePolicy.predict features allowable_actions self = (Raise TypeError, self).
Proof.
  intros Hnone Hne. destruct allowable_actions as [| a l]; [done |].
  unfold NaivePolicy.predict, try_except, enumerate. cbn [enumerate_from].
  rewrite foldM_cons.
  unfold NaivePolicy.predict_action, bind, gets, lift. cbn [fst snd].
  by rewrite Hnone.
Qed.

(** The loop of [predict] up to the first key whose weight is zero. *)
Lemma predict_loop_zero_weight (mass weight : gmap (list Z) float) (features : list Z)
    (l : list Z) :
  forall (n i : nat) (move_probabilities : list float) (m w : float),
    (i < length l)%nat ->
    (forall j, (j < i)%nat ->
       exists mj wj, mass !! (features ++ [Z.of_nat (n + j)]) = Some mj /\
                     weight !! (features ++ [Z.of_nat (n + j)]) = Some wj /\
                     PrimFloat.eqb wj 0 = false) ->
    mass !! (features ++ [Z.of_nat (n + i)]) = Some m ->
    weight !! (features ++ [Z.of_nat (n + i)]) = Some w ->
    PrimFloat.eqb w 0 = true ->
    foldM (NaivePolicy.predict_action features) (enumerate_from n l) move_probabilities
      {| NaivePolicy.state_action_mass := Some mass;
         NaivePolicy.state_action_weight := Some weight |}
    = (Raise ZeroDivisionError,
       {| NaivePolicy.state_action_mass := Some mass;
          NaivePolicy.state_action_weight := Some weight |}).
Proof.
  induction l as [| a l IH]; intros n i acc m w Hi Hbefore Hm Hw Hzero;
    [simpl in Hi; lia |].
  cbn [enumerate_from]. rewrite foldM_cons.
  destruct i as [| i].
  - rewrite Nat.add_0_r in Hm, Hw.
    unfold NaivePolicy.predict_action, bind, gets, lift, py_getitem, py_truediv.
    cbn [fst snd NaivePolicy.state_action_mass NaivePolicy.state_action_weight].
    by rewrite Hm, Hw, Hzero.
  - destruct (Hbefore 0%nat ltac:(lia)) as (m0 & w0 & Hm0 & Hw0 & Hnz).
    rewrite Nat.add_0_r in Hm0, Hw0.
    assert (Hstep : NaivePolicy.predict_action features acc (n, a)
                      {| NaivePolicy.state_action_mass := Some mass;
                         NaivePolicy.state_action_weight := Some weight |}
                    = (Ok (acc ++ [PrimFloat.div m0 w0]),
                       {| NaivePolicy.state_action_mass := Some mass;
                          NaivePolicy.state_action_weight := Some weight |})).
    { unfold NaivePolicy.predict_action, bind, gets, lift, ret, py_getitem, py_truediv.
      cbn [fst snd NaivePolicy.state_action_mass NaivePolicy.state_action_weight].
      by rewrite Hm0, Hw0, Hnz. }
    rewrite Hstep. apply (IH (S n) i _ m w).
    + simpl in Hi. lia.
    + intros j Hj. replace (S n + j)%nat with (n + S j)%nat by lia.
      apply Hbefore. lia.
    + by replace (S n + i)%nat with (n + S i)%nat by lia.
    + by replace (S n + i)%nat with (n + S i)%nat by lia.
    + done.
Qed.

(** X7. A stored weight that compares equal to zero makes [predict] raise
    [ZeroDivisionError]: if the keys of the positions before i are present
    with non-zero weights and the key of position i is present with weight
    zero, the error leaves [predict], which catches [KeyError] only, and no
    uniform answer is given. *)
Theorem NaivePolicy_predict_zero_weight (mass weight : gmap (list Z) float)
    (features allowable_actions : list Z) (i : nat) (m w : float) :
  (i < length allowable_actions)%nat ->
  (forall j, (j < i)%nat ->
     exists mj wj, mass !! (features ++ [Z.of_nat j]) = Some mj /\
                   weight !! (features ++ [Z.of_nat j]) = Some wj /\
                   PrimFloat.eqb wj 0 = false) ->
  mass !! (features ++ [Z.of_nat i]) = Some m ->
  weight !! (features ++ [Z.of_nat i]) = Some w ->
  PrimFloat.eqb w 0 = true ->
  NaivePolicy.predict features allowable_actions
    {| NaivePolicy.state_action_mass := Some mass;
       NaivePolicy.state_action_weight := Some weight |}
  = (Raise ZeroDivisionError,
     {| NaivePolicy.state_action_mass := Some mass;
        NaivePolicy.state_action_weight := Some weight |}).
Proof.
  intros Hi Hbefore Hm Hw Hzero.
  unfold NaivePolicy.predict, try_except, enumerate.
  by rewrite (predict_loop_zero_weight mass weight features allowable_actions
                0%nat i [] m w Hi Hbefore Hm Hw Hzero).
Qed.

(** * Further properties of NaiveValue.predict *)

(** X8. As soon as the estimator has a wins table, [predict] answers every
    row of every batch of tuples with the fallback [0] and returns one value
    per row: the key it looks up, the tuple of the whole batch, is never a
    key of the table, so the stored wins are not used and the visits table
    is not even consulted.  A batch that holds a list or an array makes that
    key unhashable, and [predict] raises [TypeError]. *)
Theorem NaiveValue_predict_always_falls_back (wins : gmap (list Z) Z)
    (self : NaiveValue.state) (rows : list (list Z)) (features : list pyobj) :
  NaiveValue.state_wins self = Some wins ->
  NaiveValue.predict (map tuple_of_ints rows) self
  = (Ok (map (fun _ => PyInt 0) rows), self) /\
  (hashable (PTuple features) = false ->
   NaiveValue.predict features self = (Raise TypeError, self)).
Proof.
  intros Hwins. split.
  - by apply (predict_batch_fallback wins).
  - by apply (predict_batch_unhashable wins).
Qed.

(** X9. On an estimator without a wins table (one never loaded) [predict]
    raises [TypeError] for every non-empty batch, whatever its rows are,
    which its [except (KeyError, ZeroDivisionError)] does not catch; the
    empty batch gives the empty tuple. *)
Theorem NaiveValue_predict_untrained (self : NaiveValue.state)
    (features : list pyobj) :
  NaiveValue.state_wins self = None ->
  NaiveValue.predict [] self = (Ok [], self) /\
  (features <> [] -> NaiveValue.predict features self = (Raise TypeError, self)).
Proof.
  intros Hnone. split; [done |]. intros Hne.
  destruct features as [| row rows] eqn:Hf; [done |].
  unfold NaiveValue.predict. rewrite foldM_cons.
  unfold NaiveValue.predict_row, try_except, bind, gets, lift, py_getitem_obj, raise.
  by rewrite Hnone.
Qed.

Lemma predict_row_reads (features : list pyobj) (values : list pynum)
    (board_features : pyobj) (self : NaiveValue.state) :
  (NaiveValue.predict_row features values board_features self).2 = self.
Proof.
  unfold NaiveValue.predict_row, try_except, bind, gets, lift, ret, raise.
  destruct (py_getitem_obj (NaiveValue.state_wins self) _) as [w | e].
  - destruct (py_getitem_obj (NaiveValue.state_visits self) _) as [v | e].
    + destruct (py_int_truediv w v) as [q | e]; [done | by destruct e].
    + by destruct e.
  - by destruct e.
Qed.

(** X10. [NaiveValue.predict] only reads: whatever the estimator holds,
    whatever the rows of the batch are and whether the call returns or
    raises, the estimator is afterwards exactly what it was. *)
Theorem NaiveValue_predict_reads_only (features : list pyobj)
    (self : NaiveValue.state) :
  (NaiveValue.predict features self).2 = self.
Proof. apply foldM_reads, predict_row_reads. Qed.

(** * The estimators side by side *)

(** X11. With no allowable action the three policy estimators differ:
    [UniformPolicy] returns the empty dict, [NaivePolicy] the empty list
    (without touching its tables, so even when it has none), and
    [GBDTPolicy] allocates an array without rows, which [from_npy2d]
    refuses: it raises, and the backend is not called. *)
Theorem policy_predict_no_actions
    (treelite_predictor : list (list float) -> list float)
    (uninitialized : nat -> nat -> float)
    (agent_features : list float) (features : list Z)
    (self : NaivePolicy.state) (log : list GBDTPolicy.call) :
  UniformPolicy.predict agent_features [] = Ok UniformPolicy.EmptyDict /\
  NaivePolicy.predict features [] self = (Ok [], self) /\
  GBDTPolicy.predict treelite_predictor uninitialized agent_features [] log
  = (Raise TreeliteError,
     log ++ [GBDTPolicy.NumpyEmpty 0 (length agent_features + 1)]).
Proof. split; [done |]. split; [done |]. apply predict_no_rows. Qed.

(** X12. An estimator trained on samples of which five or fewer are not
    tagged ["value"] answers every non-empty query exactly as
    [UniformPolicy] does. *)
Theorem NaivePolicy_few_samples_is_uniform (samples : list NaivePolicy.sample)
    (untrained : NaivePolicy.state) (agent_features : list float)
    (features allowable_actions : list Z) :
  (length (policy_samples samples) <= 5)%nat ->
  allowable_actions <> [] ->
  len allowable_actions < 2 ^ 63 ->
  exists (self : NaivePolicy.state) (probabilities : list float),
    NaivePolicy.train samples untrained = (Ok tt, self) /\
    NaivePolicy.predict features allowable_actions self = (Ok probabilities, self) /\
    UniformPolicy.predict agent_features allowable_actions
    = Ok (UniformPolicy.Probabilities probabilities).
Proof.
  intros Hfew Hne Hlt.
  rewrite (train_policy_samples samples untrained untrained).
  rewrite train_few_samples by done.
  eexists _, _. split; [reflexivity |]. split.
  - apply (predict_tables_miss ∅ ∅ features) with (i := 0%nat).
    + done.
    + intros key x Hx. by rewrite lookup_empty in Hx.
    + done.
    + done.
    + destruct allowable_actions; [done | simpl; lia].
    + apply lookup_empty.
  - unfold UniformPolicy.predict. destruct allowable_actions as [| a l] eqn:Hl; [done |].
    rewrite <- Hl in *. by rewrite py_truediv_one_len.
Qed.

(** * Further properties of save and load *)

(** X13. [save] needs both tables: on an estimator that lacks one of them
    (one never trained nor loaded) it raises [AttributeError], for the value
    and for the policy estimator, and no document is produced. *)
Theorem save_without_tables (value : NaiveValue.state) (policy : NaivePolicy.state) :
  (NaiveValue.state_visits value = None \/ NaiveValue.state_wins value = None ->
   NaiveValue.save value = (Raise AttributeError, value)) /\
  (NaivePolicy.state_action_mass policy = None \/
   NaivePolicy.state_action_weight policy = None ->
   NaivePolicy.save policy = (Raise AttributeError, policy)).
Proof.
  split.
  - destruct value as [[visits |] [wins |]]; intros [Hnone | Hnone]; done.
  - destruct policy as [[mass |] [weight |]]; intros [Hnone | Hnone]; done.
Qed.

Section LoadFailure.

Variable data : json.

(** X14. [NaiveValue.load] is not all-or-nothing.  If reading the field
    ["state_visits"] fails, the estimator is left as it was; if that field
    is read and the field ["state_wins"] then fails, the error is raised
    with the visits table already replaced and the wins table still the old
    one. *)
Theorem NaiveValue_load_failure (self : NaiveValue.state) (e : exn) :
  ((json_getitem data "state_visits" = Raise e \/
    exists field, json_getitem data "state_visits" = Ok field /\
                  load_dict json_int field = Raise e) ->
   NaiveValue.load data self = (Raise e, self)) /\
  (forall (field : json_table) (visits : gmap (list Z) Z),
     json_getitem data "state_visits" = Ok field ->
     load_dict json_int field = Ok visits ->
     (json_getitem data "state_wins" = Raise e \/
      exists field', json_getitem data "state_wins" = Ok field' /\
                     load_dict json_int field' = Raise e) ->
     NaiveValue.load data self
     = (Raise e, {| NaiveValue.state_visits := Some visits;
                    NaiveValue.state_wins := NaiveValue.state_wins self |})).
Proof.
  split.
  - unfold NaiveValue.load, bind, lift.
    intros [-> | (field & -> & ->)]; done.
  - intros field visits Hfield Hvisits Hwins.
    unfold NaiveValue.load, bind, lift. rewrite Hfield, Hvisits.
    unfold NaiveValue.set_state_visits, modify.
    destruct Hwins as [-> | (field' & -> & ->)]; done.
Qed.

(** X15. [NaivePolicy.load] behaves the same way: a failure on
    ["state_action_mass"] leaves the estimator as it was, a failure on
    ["state_action_weight"] leaves the mass table replaced and the weight
    table old. *)
Theorem NaivePolicy_load_failure (self : NaivePolicy.state) (e : exn) :
  ((json_getitem data "state_action_mass" = Raise e \/
    exists field, json_getitem data "state_action_mass" = Ok field /\
                  load_dict json_float field = Raise e) ->
   NaivePolicy.load data self = (Raise e, self)) /\
  (forall (field : json_table) (mass : gmap (list Z) float),
     json_getitem data "state_action_mass" = Ok field ->
     load_dict json_float field = Ok mass ->
     (json_getitem data "state_action_weight" = Raise e \/
      exists field', json_getitem data "state_action_weight" = Ok field' /\
                     load_dict json_float field' = Raise e) ->
     NaivePolicy.load data self
     = (Raise e, {| NaivePolicy.state_action_mass := Some mass;
                    NaivePolicy.state_action_weight :=
                      NaivePolicy.state_action_weight self |})).
Proof.
  split.
  - unfold NaivePolicy.load, bind, lift.
    intros [-> | (field & -> & ->)]; done.
  - intros field mass Hfield Hmass Hweight.
    unfold NaivePolicy.load, bind, lift. rewrite Hfield, Hmass.
    unfold NaivePolicy.set_state_action_mass, modify.
    destruct Hweight as [-> | (field' & -> & ->)]; done.
Qed.

End LoadFailure.





(** X17. Train, save, load: an estimator trained on any samples can be
    saved, and loading the document into any other estimator object makes
    that object equal to the trained one, so that it predicts the same. *)
Theorem NaivePolicy_train_save_load (samples : list NaivePolicy.sample)
    (untrained other : NaivePolicy.state) (features allowable_actions : list Z) :
  exists (self : NaivePolicy.state) (document : json),
    NaivePolicy.train samples untrained = (Ok tt, self) /\
    NaivePolicy.save self = (Ok document, self) /\
    NaivePolicy.load document other = (Ok tt, self) /\
    forall loaded,
      NaivePolicy.load document other = (Ok tt, loaded) ->
      (NaivePolicy.predict features allowable_actions loaded).1
      = (NaivePolicy.predict features allowable_actions self).1.
Proof.
  destruct (train_tables samples untrained)
    as (mass0 & weight0 & mass & weight & _ & Htrain & _ & _).
  exists {| NaivePolicy.state_action_mass := Some mass;
            NaivePolicy.state_action_weight := Some weight |}.
  exists [("state_action_mass"%string, dump_items JFloat (map_to_list mass));
          ("state_action_weight"%string, dump_items JFloat (map_to_list weight))].
  assert (Hload : NaivePolicy.load
            [("state_action_mass"%string, dump_items JFloat (map_to_list mass));
             ("state_action_weight"%string, dump_items JFloat (map_to_list weight))]
            other
          = (Ok tt, {| NaivePolicy.state_action_mass := Some mass;
                       NaivePolicy.state_action_weight := Some weight |})).
  { unfold NaivePolicy.load, bind, lift.
    change (json_getitem _ "state_action_mass")
      with (Ok (dump_items JFloat (map_to_list mass)) : result json_table).
    change (json_getitem _ "state_action_weight")
      with (Ok (dump_items JFloat (map_to_list weight)) : result json_table).
    cbv beta iota. rewrite (load_dict_dumped JFloat json_float json_float_JFloat).
    unfold NaivePolicy.set_state_action_mass, modify. cbv beta iota.
    rewrite (load_dict_dumped JFloat json_float json_float_JFloat). reflexivity. }
  split; [done |]. split; [reflexivity |]. split; [done |].
  intros loaded Hloaded. rewrite Hload in Hloaded. by injection Hloaded as <-.
Qed.

(** * Further properties of the policy observations *)

Lemma foldM_app {S A B} (body : B -> A -> M S B) (l1 l2 : list A) (b : B) (s : S) :
  foldM body (l1 ++ l2) b s
  = match foldM body l1 b s with
    | (Ok b', s') => foldM body l2 b' s'
    | (Raise e, s') => (Raise e, s')
    end.
Proof.
  revert b s. induction l1 as [| x l1 IH]; intros b s; [done |].
  cbn [app]. rewrite !foldM_cons. destruct (body b x s) as [[b' | e] s']; [apply IH | done].
Qed.

Section MoreObservations.

Context {S : Type}.

Lemma append_observations_prefix (features labels : list (list float)) (s : S)
    (fs ls : list (list float)) :
  length fs = length ls ->
  forall (done_f done_l rest_f rest_l : list (list float))
         (rows : list (list float)) (scalar_labels : list float),
    features = done_f ++ fs ++ rest_f -> labels = done_l ++ ls ++ rest_l ->
    length done_f = length done_l ->
    foldM (GBDTPolicy.append_observations features labels)
          (seq (length done_f) (length fs)) (rows, scalar_labels) s
    = (Ok (rows ++ concat (zip_with
                             (fun row row_labels =>
                                map (fun labelled : nat * float =>
                                       float_of_int (Z.of_nat labelled.1) :: row)
                                    (enumerate row_labels)) fs ls),
           scalar_labels ++ concat ls), s).
Proof.
  revert ls. induction fs as [| row fs IH]; intros [| row_labels ls] Hlen;
    try discriminate; intros done_f done_l rest_f rest_l rows scalar_labels Hf Hl Hdone.
  - simpl. by rewrite !app_nil_r.
  - cbn [length seq]. rewrite foldM_cons.
    rewrite (append_observations_ok features labels _ row row_labels).
    + specialize (IH ls ltac:(by injection Hlen) (done_f ++ [row]) (done_l ++ [row_labels])
                     rest_f rest_l).
      rewrite length_app in IH. simpl in IH.
      replace (length done_f + 1)%nat with (Datatypes.S (length done_f)) in IH by lia.
      rewrite IH.
      * simpl. by rewrite <- !app_assoc.
      * rewrite Hf. by rewrite <- app_assoc.
      * rewrite Hl. by rewrite <- app_assoc.
      * rewrite !length_app. simpl. lia.
    + rewrite Hf. cbn [app]. by rewrite list_lookup_middle.
    + rewrite Hl. cbn [app]. by rewrite list_lookup_middle.
Qed.

Lemma observation_loops_too_few_labels
    (features labels : list (list float)) (s : S) :
  (length labels < length features)%nat ->
  foldM (GBDTPolicy.append_observations features labels)
        (seq 0 (length features)) ([], []) s
  = (Raise IndexError, s).
Proof.
  intros Hshort.
  replace (length features)
    with (length (take (length labels) features)
          + (length features - length labels))%nat
    by (rewrite length_take; lia).
  rewrite seq_app, foldM_app.
  rewrite (append_observations_prefix features labels s
             (take (length labels) features) labels
             ltac:(rewrite length_take; lia) [] [] (drop (length labels) features) []).
  - simpl. destruct (length features - length labels)%nat as [| k] eqn:Hk; [lia |].
    cbn [seq]. rewrite foldM_cons.
    unfold GBDTPolicy.append_observations, bind, lift, py_index.
    rewrite length_take, Nat.min_l by lia.
    by rewrite lookup_ge_None_2.
  - simpl. by rewrite take_drop.
  - simpl. by rewrite app_nil_r.
  - done.
Qed.

Lemma extract_too_few_labels
    (features labels : list (list float)) (s : S) :
  (length labels < length features)%nat ->
  GBDTPolicy.extract_policy_observations features labels s = (Raise IndexError, s).
Proof.
  intros Hshort. unfold GBDTPolicy.extract_policy_observations, bind.
  by rewrite observation_loops_too_few_labels.
Qed.

(** X18. With fewer label vectors than feature vectors,
    [extract_policy_observations] raises [IndexError]: it works through the
    states that have labels and fails on the first one that has none. *)
Theorem extract_policy_observations_too_few_labels
    (features labels : list (list float)) (s : S) :
  (length labels < length features)%nat ->
  GBDTPolicy.extract_policy_observations features labels s = (Raise IndexError, s).
Proof. apply extract_too_few_labels. Qed.

(** X19. Label vectors beyond the number of feature vectors are never
    read: cutting the labels to the number of feature vectors gives the same
    result. *)
Theorem extract_policy_observations_surplus_labels
    (features labels : list (list float)) (s : S) :
  (length features <= length labels)%nat ->
  GBDTPolicy.extract_policy_observations features labels s
  = GBDTPolicy.extract_policy_observations features
      (take (length features) labels) s.
Proof.
  intros Hlong.
  unfold GBDTPolicy.extract_policy_observations, bind.
  rewrite (append_observations_prefix features labels s features
             (take (length features) labels)
             ltac:(rewrite length_take; lia) [] [] [] (drop (length features) labels)).
  - rewrite (append_observations_prefix features (take (length features) labels) s
               features (take (length features) labels)
               ltac:(rewrite length_take; lia) [] [] [] []); try done.
    + simpl. by rewrite app_nil_r.
    + simpl. by rewrite app_nil_r.
  - simpl. by rewrite app_nil_r.
  - simpl. by rewrite take_drop.
  - done.
Qed.

End MoreObservations.

(** X20. When every feature vector has length F, every row returned has
    length F + 1, so the rows form a rectangular array. *)
Theorem extract_policy_observations_rectangular {S}
    (features labels : list (list float)) (F : nat) (s : S) :
  length features = length labels ->
  Forall (fun row => length row = F) features ->
  exists (rows : list (list float)) (scalar_labels : list float),
    GBDTPolicy.extract_policy_observations features labels s
    = (Ok (rows, scalar_labels), s) /\
    Forall (fun row => length row = Datatypes.S F) rows.
Proof.
  intros Hlen Hrect. eexists _, _. split; [by apply extract_closed_form |].
  clear Hlen. revert labels.
  induction Hrect as [| row features Hrow Hrect IH]; intros [| row_labels labels];
    try (by constructor).
  cbn [zip_with concat]. apply Forall_app. split; [| apply IH].
  apply Forall_forall. intros r (labelled & -> & _)%list_elem_of_fmap.
  rewrite length_map. simpl. by rewrite Hrow.
Qed.

(** X21. [GBDTPolicy.predict] never reads the array it gets from
    [numpy.empty] before writing it: its answer and its calls are the same
    whatever the fresh memory holds. *)
Theorem GBDTPolicy_predict_ignores_fresh_memory
    (treelite_predictor : list (list float) -> list float)
    (uninitialized uninitialized' : nat -> nat -> float)
    (agent_features : list float) (allowable_actions : list Z)
    (log : list GBDTPolicy.call) :
  GBDTPolicy.predict treelite_predictor uninitialized agent_features
    allowable_actions log
  = GBDTPolicy.predict treelite_predictor uninitialized' agent_features
      allowable_actions log.
Proof.
  destruct (decide (length allowable_actions = 1%nat)) as [H1 | H1].
  { unfold GBDTPolicy.predict, len. by rewrite H1. }
  destruct allowable_actions as [| a [| b l]] eqn:Hactions; [| done |].
  { by rewrite !predict_no_rows. }
  rewrite <- Hactions in *.
  assert (HA : (1 < length allowable_actions)%nat) by (rewrite Hactions; simpl; lia).
  destruct (actions_in_float_range allowable_actions) as [Hrange | Hbad].
  - by rewrite !predict_unfold.
  - by rewrite !predict_overflow.
Qed.

Section SplitFacts.

Variable GameSamples : Type.
Variable split_train_test :
  GameSamples -> float ->
  list (list float) * list (list float) * list (list float) * list (list float).

(** X22. [extract_training_observations] prints its one line and then
    expands the training part and the test part of the split, in this
    order.  When both parts pair every feature vector with a label vector,
    it returns the four expansions, with one row per label in each part;
    when the training part has too few label vectors, it raises
    [IndexError] after printing. *)
Theorem extract_training_observations_parts (game_samples : GameSamples)
    (test_fraction : float) (out : list string)
    (train_features train_labels test_features test_labels : list (list float)) :
  split_train_test game_samples test_fraction
  = (train_features, train_labels, test_features, test_labels) ->
  let out' := out ++ ["
Building policy training observations. Sit tight."%string] in
  (length train_features = length train_labels ->
   length test_features = length test_labels ->
   exists (train_rows : list (list float)) (train_scalars : list float)
          (test_rows : list (list float)) (test_scalars : list float),
     GBDTPolicy.extract_training_observations GameSamples split_train_test
       game_samples test_fraction out
     = (Ok (train_rows, train_scalars, test_rows, test_scalars), out') /\
     GBDTPolicy.extract_policy_observations train_features train_labels out'
     = (Ok (train_rows, train_scalars), out') /\
     GBDTPolicy.extract_policy_observations test_features test_labels out'
     = (Ok (test_rows, test_scalars), out') /\
     length train_rows = sum_list (length <$> train_labels) /\
     length test_rows = sum_list (length <$> test_labels)) /\
  ((length train_labels < length train_features)%nat ->
   GBDTPolicy.extract_training_observations GameSamples split_train_test
     game_samples test_fraction out
   = (Raise IndexError, out')).
Proof.
  intros Hsplit out'. split.
  - intros Htrain Htest.
    exists (concat (zip_with observation_rows train_features train_labels)),
           (map float32 (concat train_labels)),
           (concat (zip_with observation_rows test_features test_labels)),
           (map float32 (concat test_labels)).
    split; [| split; [by apply extract_closed_form |
                      split; [by apply extract_closed_form |
                              split; by apply length_concat_observation_rows]]].
    unfold GBDTPolicy.extract_training_observations. rewrite Hsplit.
    unfold bind, GBDTPolicy.print. fold out'.
    rewrite (extract_closed_form train_features train_labels out' Htrain).
    rewrite (extract_closed_form test_features test_labels out' Htest). reflexivity.
  - intros Hshort.
    unfold GBDTPolicy.extract_training_observations. rewrite Hsplit.
    unfold bind, GBDTPolicy.print. fold out'.
    by rewrite (extract_too_few_labels train_features train_labels out' Hshort).
Qed.

End SplitFacts.

(** * The further properties at concrete inputs *)

(** X2 at five samples of one key. *)
Lemma NaivePolicy_train_few_samples_witness :
  NaivePolicy.train (repeated_samples 5) untrained_policy
  = (Ok tt, {| NaivePolicy.state_action_mass := Some ∅;
               NaivePolicy.state_action_weight := Some ∅ |}).
Proof.
  apply (NaivePolicy_train_few_samples (repeated_samples 5) untrained_policy).
  vm_compute. lia.
Defined.

(** X5 on the estimator trained on [ragged_samples]: the actions [[0, 1]]
    and the actions [[7, 9]] get the same answer. *)
Lemma NaivePolicy_predict_uses_positions_witness :
  NaivePolicy.predict [0] [0; 1] (NaivePolicy.train ragged_samples untrained_policy).2
  = NaivePolicy.predict [0] [7; 9] (NaivePolicy.train ragged_samples untrained_policy).2.
Proof.
  apply (NaivePolicy_predict_uses_positions [0] [0; 1] [7; 9]). reflexivity.
Defined.

(** X6 on the estimator as the dataclass creates it. *)
Lemma NaivePolicy_predict_untrained_witness :
  NaivePolicy.predict [0] [0; 1] untrained_policy = (Raise TypeError, untrained_policy).
Proof.
  apply (NaivePolicy_predict_untrained [0] [0; 1] untrained_policy);
    [reflexivity | discriminate].
Defined.

(** X7 on tables whose only key has weight 0.0. *)
Lemma NaivePolicy_predict_zero_weight_witness :
  NaivePolicy.predict [0] [5; 6] zero_weight_policy
  = (Raise ZeroDivisionError, zero_weight_policy).
Proof.
  apply (NaivePolicy_predict_zero_weight {[ [0; 0] := 1%float ]} {[ [0; 0] := 0%float ]}
           [0] [5; 6] 0%nat 1%float 0%float).
  - simpl. lia.
  - intros j Hj. lia.
  - vm_compute. reflexivity.
  - vm_compute. reflexivity.
  - reflexivity.
Defined.

(** X8 on [seen_value]: a batch of two tuples, the first of them a key of
    the tables, and a batch that holds the same row as a list. *)
Lemma NaiveValue_predict_always_falls_back_witness :
  NaiveValue.predict [tuple_of_ints [0; 1]; tuple_of_ints [1; 1]] seen_value
  = (Ok [PyInt 0; PyInt 0], seen_value) /\
  NaiveValue.predict [list_of_ints [0; 1]] seen_value = (Raise TypeError, seen_value).
Proof.
  destruct (NaiveValue_predict_always_falls_back {[ [0; 1] := 3 ]} seen_value
              [[0; 1]; [1; 1]] [list_of_ints [0; 1]] eq_refl)
    as [Htuples Hlist].
  split; [exact Htuples | exact (Hlist eq_refl)].
Defined.

(** X9 on the estimator as the dataclass creates it. *)
Lemma NaiveValue_predict_untrained_witness :
  NaiveValue.predict [] untrained_value = (Ok [], untrained_value) /\
  NaiveValue.predict [tuple_of_ints [0; 1]] untrained_value
  = (Raise TypeError, untrained_value).
Proof.
  destruct (NaiveValue_predict_untrained untrained_value [tuple_of_ints [0; 1]] eq_refl)
    as [Hempty Hbatch].
  split; [exact Hempty | apply Hbatch; discriminate].
Defined.

(** X14 on a document whose only visit count is NaN, and on a document
    without the field ["state_wins"]. *)
Lemma NaiveValue_load_failure_witness :
  NaiveValue.load [("state_visits"%string, [([0; 1], JFloat nan)])] seen_value
  = (Raise ValueError, seen_value) /\
  NaiveValue.load visits_only_document untrained_value
  = (Raise KeyError, {| NaiveValue.state_visits := Some {[ [0; 1] := 6 ]};
                        NaiveValue.state_wins := None |}).
Proof.
  split.
  - apply (NaiveValue_load_failure
             [("state_visits"%string, [([0; 1], JFloat nan)])] seen_value ValueError).
    right. exists [([0; 1], JFloat nan)]. split; reflexivity.
  - apply (proj2 (NaiveValue_load_failure visits_only_document untrained_value KeyError)
             [([0; 1], JInt 6)] {[ [0; 1] := 6 ]}).
    + reflexivity.
    + vm_compute. reflexivity.
    + left. reflexivity.
Defined.

(** X15 on a document whose only mass is the int 2^1024, and on a document
    without the field ["state_action_weight"]. *)
Lemma NaivePolicy_load_failure_witness :
  NaivePolicy.load [("state_action_mass"%string, [([0; 0], JInt (2 ^ 1024))])]
    zero_weight_policy
  = (Raise OverflowError, zero_weight_policy) /\
  NaivePolicy.load [("state_action_mass"%string, [([0; 0], JFloat 1)])]
    untrained_policy
  = (Raise KeyError, {| NaivePolicy.state_action_mass := Some {[ [0; 0] := 1%float ]};
                        NaivePolicy.state_action_weight := None |}).
Proof.
  split.
  - apply (NaivePolicy_load_failure
             [("state_action_mass"%string, [([0; 0], JInt (2 ^ 1024))])]
             zero_weight_policy OverflowError).
    right. exists [([0; 0], JInt (2 ^ 1024))]. split; [reflexivity |].
    vm_compute. reflexivity.
  - apply (proj2 (NaivePolicy_load_failure
                    [("state_action_mass"%string, [([0; 0], JFloat 1)])]
                    untrained_policy KeyError)
             [([0; 0], JFloat 1)] {[ [0; 0] := 1%float ]}).
    + reflexivity.
    + vm_compute. reflexivity.
    + left. reflexivity.
Defined.


(** X12 at five samples and three allowable actions. *)
Lemma NaivePolicy_few_samples_is_uniform_witness :
  exists (self : NaivePolicy.state) (probabilities : list float),
    NaivePolicy.train (repeated_samples 5) untrained_policy = (Ok tt, self) /\
    NaivePolicy.predict [0] [7; 8; 9] self = (Ok probabilities, self) /\
    UniformPolicy.predict [3%float; 4%float] [7; 8; 9]
    = Ok (UniformPolicy.Probabilities probabilities).
Proof.
  apply (NaivePolicy_few_samples_is_uniform (repeated_samples 5) untrained_policy
           [3%float; 4%float] [0] [7; 8; 9]).
  - vm_compute. lia.
  - discriminate.
  - vm_compute. reflexivity.
Defined.

(** X18 at two feature vectors and one label vector. *)
Lemma extract_policy_observations_too_few_labels_witness :
  GBDTPolicy.extract_policy_observations
    [[0%float; 1%float]; [1%float; 0%float]] [[0.25%float; 0.75%float]] tt
  = (Raise IndexError, tt).
Proof.
  apply (extract_policy_observations_too_few_labels
           [[0%float; 1%float]; [1%float; 0%float]] [[0.25%float; 0.75%float]] tt).
  simpl. lia.
Defined.

(** X19 at one feature vector and two label vectors. *)
Lemma extract_policy_observations_surplus_labels_witness :
  GBDTPolicy.extract_policy_observations
    [[0%float; 1%float]] [[0.25%float; 0.75%float]; [1%float]] tt
  = GBDTPolicy.extract_policy_observations
      [[0%float; 1%float]] [[0.25%float; 0.75%float]] tt.
Proof.
  apply (extract_policy_observations_surplus_labels
           [[0%float; 1%float]] [[0.25%float; 0.75%float]; [1%float]] tt).
  simpl. lia.
Defined.

(** X20 at two feature vectors of length 2. *)
Lemma extract_policy_observations_rectangular_witness :
  exists (rows : list (list float)) (scalar_labels : list float),
    GBDTPolicy.extract_policy_observations
      [[0%float; 1%float]; [1%float; 0%float]]
      [[0.25%float; 0.75%float]; [0.5%float; 0.5%float]] tt
    = (Ok (rows, scalar_labels), tt) /\
    Forall (fun row => length row = 3%nat) rows.
Proof.
  apply (extract_policy_observations_rectangular
           [[0%float; 1%float]; [1%float; 0%float]]
           [[0.25%float; 0.75%float]; [0.5%float; 0.5%float]] 2 tt).
  - reflexivity.
  - repeat constructor.
Defined.

(** X22 at two game samples, the first for training. *)
Lemma extract_training_observations_parts_witness :
  exists (train_rows : list (list float)) (train_scalars : list float)
         (test_rows : list (list float)) (test_scalars : list float),
    GBDTPolicy.extract_training_observations _ first_for_training
      [([0%float; 1%float], [0.25%float; 0.75%float]);
       ([1%float; 0%float], [1%float])] default_test_fraction []
    = (Ok (train_rows, train_scalars, test_rows, test_scalars),
       ["
Building policy training observations. Sit tight."%string]) /\
    length train_rows = 2%nat /\ length test_rows = 1%nat.
Proof.
  destruct (extract_training_observations_parts _ first_for_training
              [([0%float; 1%float], [0.25%float; 0.75%float]);
               ([1%float; 0%float], [1%float])] default_test_fraction []
              [[0%float; 1%float]] [[0.25%float; 0.75%float]]
              [[1%float; 0%float]] [[1%float]] eq_refl)
    as [Hparts _].
  destruct (Hparts eq_refl eq_refl)
    as (train_rows & train_scalars & test_rows & test_scalars & Hrun & _ & _ & Htr & Hte).
  exists train_rows, train_scalars, test_rows, test_scalars.
  split; [exact Hrun |]. split; [exact Htr | exact Hte].
Defined.
